(** * Donation backend (server.js): reconciliation ledger and admin identity

    A shallow embedding of the request handlers of [server.js]:
    [/create-payment-intent], [/webhook], [/admin-api/check-setup],
    [/admin-api/register], [/admin-api/login], [/admin-api/donations] and
    [/admin-api/users], together with the catch-all error middleware.

    - JavaScript numbers are IEEE-754 binary64 values, represented by the
      Standard Library's [spec_float] with its reference operations
      ([SFmul], [SFcompare], ...) at precision 53 and maximal exponent 1024.
    - The SQLite database is a record of two tables, each a list of rows in
      rowid order; every statement the handlers issue is a constructor of
      [Sql] with its effect on the tables written out.
    - The handlers run in a small state-and-exception monad over a [World]
      (database, trace of calls to collaborators, console, session); a
      thrown JavaScript error keeps the state reached so far, as in the
      source.
    - Stripe, bcrypt, the JSON parser and the faults of the database driver
      are oracles gathered in an [Env] record. *)

From Stdlib Require Import ZArith List String Bool Lia QArith Qround Qabs.
From Stdlib Require Import Sorting.Sorted Sorting.Permutation.
From Stdlib Require Import Floats.SpecFloat.
Import ListNotations.

Local Open Scope string_scope.
Local Open Scope list_scope.
Local Open Scope Z_scope.

(** ** JavaScript numbers *)

Module Js.

Definition prec : Z := 53.
Definition emax : Z := 1024.

Definition Number := spec_float.

Definition mul : Number -> Number -> Number := SFmul prec emax.
Definition leb : Number -> Number -> bool := SFleb.

(** The Number whose value is the integer [n] (exact below 2^53). *)
Definition of_Z (n : Z) : Number := binary_normalize prec emax n 0 false.

Definition isNaN (x : Number) : bool :=
  match x with S754_nan => true | _ => false end.

Definition isFinite (x : Number) : bool :=
  match x with S754_zero _ | S754_finite _ _ _ => true | _ => false end.

(** [Math.round]: a non-finite or integral argument is returned as it is;
    otherwise the result is the closest integral Number, the one closer to
    +infinity on a tie, with the sign of the argument when it is zero.
    For [x = (-1)^s * m * 2^e] with [e < 0], [q] is the integer part of
    [m * 2^e] and [r] its fraction bits. *)
Definition round_magnitude (s : bool) (m : positive) (k : Z) : Z :=
  let q := Z.shiftr (Zpos m) k in
  let r := Z.land (Zpos m) (Z.ones k) in
  let half := Z.shiftl 1 (k - 1) in
  if s then (if half <? r then q + 1 else q)
  else (if half <=? r then q + 1 else q).

Definition Math_round (x : Number) : Number :=
  match x with
  | S754_finite s m e =>
      if 0 <=? e then x
      else if Z.land (Zpos m) (Z.ones (- e)) =? 0 then x
      else binary_normalize prec emax
             (cond_Zopp s (round_magnitude s m (- e))) 0 s
  | _ => x
  end.

(** The rational value of a finite Number (0 for the others). *)
Definition to_Q (x : Number) : Q :=
  match x with
  | S754_finite s m (Zneg k) => Qmake (cond_Zopp s (Zpos m)) (2 ^ k)%positive
  | S754_finite s m e => inject_Z (cond_Zopp s (Zpos m) * 2 ^ e)
  | _ => 0%Q
  end.

(** A binary64 datum: canonical mantissa and exponent in range. *)
Definition valid (x : Number) : bool := valid_binary prec emax x.

(** Values of a parsed request body, as the handlers inspect them. An
    object or array is kept as its JSON text. *)
Inductive Value :=
| Undefined
| Null
| Boolean (b : bool)
| Num (x : Number)
| Str (s : string)
| Object (json : string).

(** [!v] is [negb (truthy v)]. *)
Definition truthy (v : Value) : bool :=
  match v with
  | Undefined | Null => false
  | Boolean b => b
  | Num (S754_zero _) | Num S754_nan => false
  | Num _ => true
  | Str s => negb (String.eqb s "")
  | Object _ => true
  end.

(** A text field of a request body: absent, or a string. *)
Definition truthy_text (t : option string) : bool :=
  match t with
  | Some s => negb (String.eqb s "")
  | None => false
  end.

(** [t || null] on a text field. *)
Definition or_null (t : option string) : option string :=
  if truthy_text t then t else None.

End Js.

(** ** Errors and results *)

Record JsError := mkError { message : string }.

Inductive Result (A : Type) :=
| Ok (a : A)
| Throw (err : JsError).
Arguments Ok {A} a.
Arguments Throw {A} err.

(** ** Parsed JSON *)

Module Json.

(** What [JSON.parse] returns. An object is given by its own properties,
    each key once. *)
Local Unset Elimination Schemes.
Inductive t :=
| JNull
| JBool (b : bool)
| JNumber (x : Js.Number)
| JString (s : string)
| JArray (items : list t)
| JObject (properties : list (string * t)).
Local Set Elimination Schemes.

Fixpoint lookup (key : string) (properties : list (string * t)) : option t :=
  match properties with
  | [] => None
  | (k, v) :: rest => if String.eqb k key then Some v else lookup key rest
  end.

(** [v.key], where [None] stands for [undefined], for the keys the webhook
    reads ([type], [data], [object] and [id]): reading a property of
    [undefined] or [null] throws a TypeError; booleans, numbers, strings
    and arrays have no property of these names. *)
Definition get (v : option t) (key : string) : Result (option t) :=
  match v with
  | None =>
      Throw (mkError (String.append "Cannot read properties of undefined (reading " key))
  | Some JNull =>
      Throw (mkError (String.append "Cannot read properties of null (reading " key))
  | Some (JObject properties) => Ok (lookup key properties)
  | Some _ => Ok None
  end.


(** [v === s] for a string [s]. *)
Definition is_string (v : option t) (s : string) : bool :=
  match v with
  | Some (JString s') => String.eqb s' s
  | _ => false
  end.

End Json.

(** ** Data model *)

(** A row of the [donations] table. [created_at] is the value of
    [CURRENT_TIMESTAMP] at insertion, counted in seconds. *)
Record Donation := mkDonation {
  id : Z;
  donation_amount : Js.Number;
  email : option string;
  first_name : option string;
  last_name : option string;
  card_name : option string;
  country : option string;
  postal_code : option string;
  payment_intent_id : string;
  payment_intent_status : string;
  created_at : Z
}.

(** A row of the [admin_users] table; [password] holds the bcrypt hash. *)
Record AdminUser := mkAdminUser {
  admin_id : Z;
  username : string;
  password : string
}.

Record Database := mkDatabase {
  donations : list Donation;
  admin_users : list AdminUser
}.

(** Objects handed out by the Stripe client. An [Event] is what the
    webhook reads of a well-formed event: a string [type] and a string
    [data.object.id]. *)
Module Stripe.

Record PaymentIntent := mkPaymentIntent {
  id : string;
  client_secret : string;
  status : string
}.

Record Event := mkEvent {
  type : string;
  data_object_id : string
}.

(** The event a parsed payload is, when its [type] and its
    [data.object.id] can be read and are strings. *)
Definition view (payload : Json.t) : option Event :=
  match Json.get (Some payload) "type" with
  | Ok (Some (Json.JString ty)) =>
      match Json.get (Some payload) "data" with
      | Ok data =>
          match Json.get data "object" with
          | Ok object =>
              match Json.get object "id" with
              | Ok (Some (Json.JString i)) => Some (mkEvent ty i)
              | _ => None
              end
          | Throw _ => None
          end
      | Throw _ => None
      end
  | _ => None
  end.

End Stripe.

(** Request bodies. *)
Module Body.

Record Donation := mkDonation {
  donationAmount : Js.Value;
  email : option string;
  firstName : option string;
  lastName : option string;
  cardName : option string;
  country : option string;
  postalCode : option string
}.

Record Credentials := mkCredentials {
  username : option string;
  password : Js.Value
}.

Record Webhook := mkWebhook {
  raw : string;
  stripe_signature : option string
}.

End Body.

(** The SQL statements of the source, with their bound parameters. *)
Inductive Sql :=
| INSERT_INTO_donations
    (amount : Js.Number)
    (email first_name last_name card_name country postal_code : option string)
    (payment_intent_id payment_intent_status : string)
| UPDATE_donations_WHERE_payment_intent_id (new_status : string)
    (intent : option Json.t)
| UPDATE_donations_WHERE_id (new_status : string) (rowid : Z)
| SELECT_donations_ORDER_BY_created_at_DESC
| SELECT_COUNT_admin_users
| SELECT_admin_users_WHERE_username (name : string)
| INSERT_INTO_admin_users (name hash : string).

(** Calls to the outside that the specification speaks about. *)
Inductive Call :=
| StripeCreate (amount : Js.Number) (currency : string)
    (receipt_email : option string)
| StripeRetrieve (intent : string)
| Db (q : Sql).

(** Response bodies: the JSON objects the handlers send, and the text of
    [res.send]. *)
Inductive Payload :=
| J_error (msg : string)
| J_clientSecret (secret : string)
| J_received
| J_message (msg : string)
| J_setup (b : bool)
| J_donations (rows : list Donation)
| Text (s : string).

Record Response := mkResponse {
  statusCode : Z;
  payload : Payload
}.

Record SessionUser := mkSessionUser {
  user_id : Z;
  user_name : string
}.

Record World := mkWorld {
  db : Database;
  calls : list Call;
  console : list string;
  session_user : option SessionUser
}.

(** ** Effect of the statements on the tables *)

(** AUTOINCREMENT: one more than the largest rowid in use (no row is ever
    deleted). *)
Definition next_rowid (ids : list Z) : Z :=
  1 + fold_right Z.max 0 ids.

Definition set_status (s : string) (d : Donation) : Donation :=
  mkDonation (id d) (donation_amount d) (email d) (first_name d)
    (last_name d) (card_name d) (country d) (postal_code d)
    (payment_intent_id d) s (created_at d).

(** [ORDER BY created_at DESC]; rows of equal timestamp keep rowid order. *)
Fixpoint insert_desc (d : Donation) (l : list Donation) : list Donation :=
  match l with
  | [] => [d]
  | x :: r =>
      if created_at x <=? created_at d then d :: l
      else x :: insert_desc d r
  end.

Definition order_by_created_at_desc (l : list Donation) : list Donation :=
  fold_right insert_desc [] l.

Definition username_taken (name : string) (l : list AdminUser) : bool :=
  existsb (fun u => String.eqb (username u) name) l.

(** The TEXT that [payment_intent_id = ?] compares the column with: the
    string itself when the parameter is a string, and what the driver and
    SQLite make of any other value ([other]), [None] when that is NULL. *)
Definition intent_text (other : option Json.t -> option string)
    (intent : option Json.t) : option string :=
  match intent with
  | Some (Json.JString s) => Some s
  | _ => other intent
  end.

(** What a write statement does to the database, or the constraint error
    it raises ([username] is UNIQUE). [now] is the clock. *)
Definition run_sql (now : Z) (other : option Json.t -> option string)
    (q : Sql) (d : Database) : Result Database :=
  match q with
  | INSERT_INTO_donations a em fn ln cn co pc pi st =>
      Ok (mkDatabase
            (donations d ++
               [mkDonation (next_rowid (map id (donations d)))
                  a em fn ln cn co pc pi st now])
            (admin_users d))
  | UPDATE_donations_WHERE_payment_intent_id st intent =>
      match intent_text other intent with
      | Some pi =>
          Ok (mkDatabase
                (map (fun r => if String.eqb (payment_intent_id r) pi
                               then set_status st r else r) (donations d))
                (admin_users d))
      | None => Ok d
      end
  | UPDATE_donations_WHERE_id st i =>
      Ok (mkDatabase
            (map (fun r => if id r =? i then set_status st r else r)
               (donations d))
            (admin_users d))
  | INSERT_INTO_admin_users name hash =>
      if username_taken name (admin_users d)
      then Throw (mkError "SQLITE_CONSTRAINT: UNIQUE constraint failed: admin_users.username")
      else Ok (mkDatabase (donations d)
                 (admin_users d ++
                    [mkAdminUser (next_rowid (map admin_id (admin_users d)))
                       name hash]))
  | _ => Ok d
  end.

(** ** Collaborators *)

Record Env := mkEnv {
  STRIPE_WEBHOOK_SECRET : option string;
  (** [stripeInstance.paymentIntents.create({amount, currency, receipt_email})] *)
  paymentIntents_create :
    Js.Number -> string -> option string -> Result Stripe.PaymentIntent;
  (** [stripeInstance.paymentIntents.retrieve(id)] *)
  paymentIntents_retrieve : string -> Result Stripe.PaymentIntent;
  (** [stripeInstance.webhooks.constructEvent(body, signature, secret)] *)
  constructEvent : string -> option string -> string -> Result Json.t;
  JSON_parse : string -> Result Json.t;
  (** [bcrypt.hash(password, 10)] and [bcrypt.compare(password, hash)] *)
  bcrypt_hash : Js.Value -> Result string;
  bcrypt_compare : Js.Value -> string -> Result bool;
  (** [Number(s)] on a string, and on an object given by its JSON text. *)
  StringToNumber : string -> Js.Number;
  ObjectToNumber : string -> Js.Number;
  (** The statements on which the database driver reports an error. *)
  db_fails : Sql -> bool;
  (** The TEXT a bound value that is not a string compares as, if it is not
      NULL. *)
  sqlite_text : option Json.t -> option string;
  CURRENT_TIMESTAMP : Z
}.

(** ** The handler monad: state that survives a thrown error *)

Definition M (A : Type) : Type := World -> Result A * World.

Definition ret {A} (a : A) : M A := fun w => (Ok a, w).

Definition throw {A} (err : JsError) : M A := fun w => (Throw err, w).

Definition bind {A B} (c : M A) (k : A -> M B) : M B :=
  fun w =>
    match c w with
    | (Ok a, w') => k a w'
    | (Throw err, w') => (Throw err, w')
    end.

(** [try { c } catch (err) { h err }] *)
Definition try_catch {A} (c : M A) (h : JsError -> M A) : M A :=
  fun w =>
    match c w with
    | (Ok a, w') => (Ok a, w')
    | (Throw err, w') => h err w'
    end.

Declare Scope js_scope.
Delimit Scope js_scope with js.
Notation "x <- c ;; k" := (bind c (fun x => k))
  (at level 61, c at next level, right associativity) : js_scope.
Notation "c ;; k" := (bind c (fun _ => k))
  (at level 61, right associativity) : js_scope.
Local Open Scope js_scope.

(** [await] of a promise that settled with [r]. *)
Definition await {A} (r : Result A) : M A := fun w => (r, w).

Definition record_call (c : Call) : M unit :=
  fun w => (Ok tt, mkWorld (db w) (calls w ++ [c]) (console w) (session_user w)).

Definition console_print (line : string) : M unit :=
  fun w => (Ok tt, mkWorld (db w) (calls w) (console w ++ [line]) (session_user w)).

Definition get_db : M Database := fun w => (Ok (db w), w).

Definition put_db (d : Database) : M unit :=
  fun w => (Ok tt, mkWorld d (calls w) (console w) (session_user w)).

Definition get_session : M (option SessionUser) :=
  fun w => (Ok (session_user w), w).

Definition set_session (u : SessionUser) : M unit :=
  fun w => (Ok tt, mkWorld (db w) (calls w) (console w) (Some u)).

Definition json (code : Z) (p : Payload) : Response := mkResponse code p.

Fixpoint for_of {A B} (body : A -> M B) (l : list A) : M (list B) :=
  match l with
  | [] => ret []
  | a :: r => b <- body a ;; bs <- for_of body r ;; ret (b :: bs)
  end.

Section Server.

Variable E : Env.

Definition driver_error : JsError := mkError "SQLITE_ERROR".

(** [dbRun(sql, params)]: resolves when the statement has run, rejects with
    the driver's or the constraint's error, leaving the tables as they
    were. *)
Definition dbRun (q : Sql) : M unit :=
  record_call (Db q) ;;
  if db_fails E q then throw driver_error
  else
    d <- get_db ;;
    d' <- await (run_sql (CURRENT_TIMESTAMP E) (sqlite_text E) q d) ;;
    put_db d'.

(** [dbGet(`SELECT COUNT( * ) as count FROM admin_users`)], read at [.count]. *)
Definition dbGet_count : M Z :=
  record_call (Db SELECT_COUNT_admin_users) ;;
  if db_fails E SELECT_COUNT_admin_users then throw driver_error
  else d <- get_db ;; ret (Z.of_nat (List.length (admin_users d))).

(** [dbGet(`SELECT * FROM admin_users WHERE username = ?`, [username])] *)
Definition dbGet_user (name : string) : M (option AdminUser) :=
  record_call (Db (SELECT_admin_users_WHERE_username name)) ;;
  if db_fails E (SELECT_admin_users_WHERE_username name) then throw driver_error
  else
    d <- get_db ;;
    ret (find (fun u => String.eqb (username u) name) (admin_users d)).

(** [dbAll(`SELECT * FROM donations ORDER BY created_at DESC`)] *)
Definition dbAll_donations : M (list Donation) :=
  record_call (Db SELECT_donations_ORDER_BY_created_at_DESC) ;;
  if db_fails E SELECT_donations_ORDER_BY_created_at_DESC then throw driver_error
  else d <- get_db ;; ret (order_by_created_at_desc (donations d)).

Definition stripe_create (amount : Js.Number) (currency : string)
    (receipt_email : option string) : M Stripe.PaymentIntent :=
  record_call (StripeCreate amount currency receipt_email) ;;
  await (paymentIntents_create E amount currency receipt_email).

Definition stripe_retrieve (intent : string) : M Stripe.PaymentIntent :=
  record_call (StripeRetrieve intent) ;;
  await (paymentIntents_retrieve E intent).

(** [Number(v)] *)
Definition ToNumber (v : Js.Value) : Js.Number :=
  match v with
  | Js.Undefined => S754_nan
  | Js.Null => S754_zero false
  | Js.Boolean b => if b then Js.of_Z 1 else S754_zero false
  | Js.Num x => x
  | Js.Str s => StringToNumber E s
  | Js.Object j => ObjectToNumber E j
  end.

(** [Math.round(Number(donationAmount) * 100)] *)
Definition amountCents (donationAmount : Js.Value) : Js.Number :=
  Js.Math_round (Js.mul (ToNumber donationAmount) (Js.of_Z 100)).

(** The catch-all error middleware, reached through [next(err)]. *)
Definition next (err : JsError) : M Response :=
  console_print "Unhandled error:" ;;
  ret (json 500 (J_error "An internal server error occurred.")).

(** [app.post('/create-payment-intent')] *)
Definition create_payment_intent (body : Body.Donation) : M Response :=
  try_catch
    (if negb (Js.truthy (Body.donationAmount body))
        || negb (Js.truthy_text (Body.email body))
     then ret (json 400 (J_error "Donation amount and email are required."))
     else
       let cents := amountCents (Body.donationAmount body) in
       if Js.isNaN cents || Js.leb cents (S754_zero false)
       then ret (json 400 (J_error "Invalid donation amount."))
       else
         paymentIntent <- stripe_create cents "usd" (Body.email body) ;;
         dbRun (INSERT_INTO_donations cents (Body.email body)
                  (Js.or_null (Body.firstName body))
                  (Js.or_null (Body.lastName body))
                  (Js.or_null (Body.cardName body))
                  (Js.or_null (Body.country body))
                  (Js.or_null (Body.postalCode body))
                  (Stripe.id paymentIntent) "pending") ;;
         ret (json 200 (J_clientSecret (Stripe.client_secret paymentIntent))))
    (fun err => console_print "Error in /create-payment-intent:" ;; next err).

(** The first half of [app.post('/webhook')]: the event is built by
    [constructEvent] when a webhook secret is configured, and by
    [JSON.parse] of the raw body otherwise. *)
Definition received_event (req : Body.Webhook) : Result Json.t :=
  match STRIPE_WEBHOOK_SECRET E with
  | Some secret =>
      if Js.truthy_text (Some secret)
      then constructEvent E (Body.raw req) (Body.stripe_signature req) secret
      else JSON_parse E (Body.raw req)
  | None => JSON_parse E (Body.raw req)
  end.

(** [app.post('/webhook')]. The reads [event.type], [event.data.object]
    and [paymentIntent.id] are outside any [try]: a TypeError they raise is
    thrown out of the handler. The update is started without being awaited;
    the world returned is the one reached when its promise has settled. *)
Definition webhook (req : Body.Webhook) : M Response :=
  match received_event req with
  | Throw err =>
      console_print
        (if Js.truthy_text (STRIPE_WEBHOOK_SECRET E)
         then "Stripe webhook signature verification failed:"
         else "Webhook parse error:") ;;
      ret (json 400 (Text (String.append "Webhook Error: " (message err))))
  | Ok event =>
      type <- await (Json.get (Some event) "type") ;;
      (if Json.is_string type "payment_intent.succeeded" then
         data <- await (Json.get (Some event) "data") ;;
         paymentIntent <- await (Json.get data "object") ;;
         intent <- await (Json.get paymentIntent "id") ;;
         try_catch
           (dbRun (UPDATE_donations_WHERE_payment_intent_id "succeeded" intent) ;;
            console_print "Donation record updated for PaymentIntent")
           (fun err => console_print "DB Update Error in webhook:")
       else ret tt) ;;
      ret (json 200 J_received)
  end.

(** Express around a handler that is not [async]: an error thrown out of
    the handler is passed to [next]. *)
Definition route (handler : M Response) : M Response :=
  try_catch handler next.

(** The [isAuthenticated] middleware in front of a handler. *)
Definition isAuthenticated (handler : M Response) : M Response :=
  u <- get_session ;;
  match u with
  | Some _ => handler
  | None => ret (json 401 (J_error "Unauthorized"))
  end.

(** [app.get('/admin-api/check-setup')] *)
Definition check_setup : M Response :=
  try_catch
    (count <- dbGet_count ;;
     ret (json 200 (J_setup (0 <? count))))
    (fun err => console_print "Error in /admin-api/check-setup:" ;; next err).

Definition text (t : option string) : string :=
  match t with Some s => s | None => "" end.

Definition is_some {A} (o : option A) : bool :=
  match o with Some _ => true | None => false end.

(** [app.post('/admin-api/register')] *)
Definition register (body : Body.Credentials) : M Response :=
  try_catch
    (if negb (Js.truthy_text (Body.username body))
        || negb (Js.truthy (Body.password body))
     then ret (json 400 (J_error "Username and password are required."))
     else
       count <- dbGet_count ;;
       let isFirstUser := count =? 0 in
       u <- get_session ;;
       if negb isFirstUser && negb (is_some u)
       then ret (json 401
                   (J_error "Unauthorized. Please log in as admin to add new users."))
       else
         hash <- await (bcrypt_hash E (Body.password body)) ;;
         dbRun (INSERT_INTO_admin_users (text (Body.username body)) hash) ;;
         ret (json 200 (J_message "Admin user registered successfully.")))
    (fun err => console_print "Error in /admin-api/register:" ;; next err).

(** [app.post('/admin-api/login')] *)
Definition login (body : Body.Credentials) : M Response :=
  try_catch
    (if negb (Js.truthy_text (Body.username body))
        || negb (Js.truthy (Body.password body))
     then ret (json 400 (J_error "Username and password are required."))
     else
       user <- dbGet_user (text (Body.username body)) ;;
       match user with
       | None => ret (json 401 (J_error "Invalid credentials."))
       | Some user =>
           isMatch <- await (bcrypt_compare E (Body.password body)
                               (password user)) ;;
           if isMatch : bool then
             set_session (mkSessionUser (admin_id user) (username user)) ;;
             ret (json 200 (J_message "Login successful."))
           else ret (json 401 (J_error "Invalid credentials."))
       end)
    (fun err => console_print "Error in /admin-api/login:" ;; next err).

(** The body of the [for (let donation of donations)] loop; it returns the
    row as the loop leaves it in the array. *)
Definition refresh (donation : Donation) : M Donation :=
  if String.eqb (payment_intent_status donation) "pending" then
    try_catch
      (paymentIntent <- stripe_retrieve (payment_intent_id donation) ;;
       if negb (String.eqb (Stripe.status paymentIntent)
                  (payment_intent_status donation))
       then
         dbRun (UPDATE_donations_WHERE_id (Stripe.status paymentIntent)
                  (id donation)) ;;
         ret (set_status (Stripe.status paymentIntent) donation)
       else ret donation)
      (fun err =>
         console_print "Error fetching PaymentIntent for donation id" ;;
         ret donation)
  else ret donation.

(** [app.get('/admin-api/donations')] *)
Definition list_donations : M Response :=
  isAuthenticated
    (try_catch
       (rows <- dbAll_donations ;;
        rows' <- for_of refresh rows ;;
        ret (json 200 (J_donations rows')))
       (fun err => console_print "Error in /admin-api/donations:" ;; next err)).

(** [app.post('/admin-api/users')] *)
Definition add_user (body : Body.Credentials) : M Response :=
  isAuthenticated
    (try_catch
       (if negb (Js.truthy_text (Body.username body))
           || negb (Js.truthy (Body.password body))
        then ret (json 400 (J_error "Username and password are required."))
        else
          hash <- await (bcrypt_hash E (Body.password body)) ;;
          dbRun (INSERT_INTO_admin_users (text (Body.username body)) hash) ;;
          ret (json 200 (J_message "New admin user added successfully.")))
       (fun err => console_print "Error in /admin-api/users:" ;; next err)).

End Server.

(** ** The HTTP surface *)

Inductive Request :=
| POST_create_payment_intent (body : Body.Donation)
| POST_webhook (req : Body.Webhook)
| GET_check_setup
| POST_register (body : Body.Credentials)
| POST_login (body : Body.Credentials)
| GET_donations
| POST_users (body : Body.Credentials).

Definition handle (E : Env) (r : Request) : M Response :=
  match r with
  | POST_create_payment_intent body => create_payment_intent E body
  | POST_webhook req => route (webhook E req)
  | GET_check_setup => check_setup E
  | POST_register body => register E body
  | POST_login body => login E body
  | GET_donations => list_donations E
  | POST_users body => add_user E body
  end.

(** ** Vocabulary of the statements *)

(** [new] is [old] up to the payment status. *)
Definition same_but_status (old new : Donation) : Prop :=
  id new = id old /\
  donation_amount new = donation_amount old /\
  email new = email old /\
  first_name new = first_name old /\
  last_name new = last_name old /\
  card_name new = card_name old /\
  country new = country old /\
  postal_code new = postal_code old /\
  payment_intent_id new = payment_intent_id old /\
  created_at new = created_at old.

Definition newest_first (a b : Donation) : Prop := created_at b <= created_at a.

(** The status a reconciliation pass is expected to leave on a row: the
    one the processor reports for a pending row whose lookup and store
    update both go through, the stored one otherwise. *)
Definition reconciled_status (E : Env) (d : Donation) : string :=
  if String.eqb (payment_intent_status d) "pending" then
    match paymentIntents_retrieve E (payment_intent_id d) with
    | Ok p =>
        if db_fails E (UPDATE_donations_WHERE_id (Stripe.status p) (id d))
        then payment_intent_status d
        else Stripe.status p
    | Throw _ => payment_intent_status d
    end
  else payment_intent_status d.

(** The calls a reconciliation pass is expected to make for a row: none
    for a row that is not pending, one lookup for a pending row, followed
    by one update exactly when the reported status differs. *)
Definition reconciliation_calls (E : Env) (d : Donation) : list Call :=
  if String.eqb (payment_intent_status d) "pending" then
    StripeRetrieve (payment_intent_id d) ::
    match paymentIntents_retrieve E (payment_intent_id d) with
    | Ok p =>
        if String.eqb (Stripe.status p) (payment_intent_status d) then []
        else [Db (UPDATE_donations_WHERE_id (Stripe.status p) (id d))]
    | Throw _ => []
    end
  else [].

(** The status the processor reports for a row, as a reconciliation pass
    sees it: pending rows are looked up, and a lookup that fails leaves the
    stored status; the other rows are not looked up. *)
Definition reported_status (E : Env) (d : Donation) : string :=
  if String.eqb (payment_intent_status d) "pending" then
    match paymentIntents_retrieve E (payment_intent_id d) with
    | Ok p => Stripe.status p
    | Throw _ => payment_intent_status d
    end
  else payment_intent_status d.

(** The status a reconciliation pass writes to the store for a row, if it
    writes one. *)
Definition store_update (E : Env) (d : Donation) : option string :=
  if String.eqb (payment_intent_status d) "pending" then
    match paymentIntents_retrieve E (payment_intent_id d) with
    | Ok p =>
        if String.eqb (Stripe.status p) (payment_intent_status d) then None
        else if db_fails E (UPDATE_donations_WHERE_id (Stripe.status p) (id d))
        then None
        else Some (Stripe.status p)
    | Throw _ => None
    end
  else None.

Definition reconciled (E : Env) (d : Donation) : Donation :=
  set_status (reconciled_status E d) d.

(** The effect on a stored row [r] of the pass over the listed row [d]. *)
Definition touch (E : Env) (r d : Donation) : Donation :=
  match store_update E d with
  | Some s => if id r =? id d then set_status s r else r
  | None => r
  end.

Definition apply_update (E : Env) (rows : list Donation) (d : Donation)
  : list Donation :=
  match store_update E d with
  | Some s => map (fun r => if id r =? id d then set_status s r else r) rows
  | None => rows
  end.

(** The environment in which the lookup of the intent [p] fails. *)
Definition with_failing_lookup (E : Env) (p : string) (err : JsError) : Env :=
  mkEnv (STRIPE_WEBHOOK_SECRET E) (paymentIntents_create E)
    (fun i => if String.eqb i p then Throw err else paymentIntents_retrieve E i)
    (constructEvent E) (JSON_parse E) (bcrypt_hash E) (bcrypt_compare E)
    (StringToNumber E) (ObjectToNumber E) (db_fails E) (sqlite_text E)
    (CURRENT_TIMESTAMP E).

(** Rounding a rational half-up to an integer. *)
Definition round_half_up (q : Q) : Z := Qfloor (q + (1 # 2)).

(** [x] is a binary64 value nearest to the rational [q]: a finite double
    that is no further from [q] than its two neighbours are. *)
Definition nearest_double (q : Q) (x : Js.Number) : Prop :=
  Js.valid x = true /\
  Js.isFinite x = true /\
  Js.isFinite (SFpred Js.prec Js.emax x) = true /\
  Js.isFinite (SFsucc Js.prec Js.emax x) = true /\
  (Qabs (Js.to_Q x - q) <= Qabs (Js.to_Q (SFpred Js.prec Js.emax x) - q))%Q /\
  (Qabs (Js.to_Q x - q) <= Qabs (Js.to_Q (SFsucc Js.prec Js.emax x) - q))%Q.

(** The creation requests the claim on validation speaks about: amount
    missing, or converting to a non-positive number of cents, or email
    missing or empty. *)
Definition invalid_creation (E : Env) (body : Body.Donation) : Prop :=
  Body.donationAmount body = Js.Undefined \/
  Body.donationAmount body = Js.Null \/
  Js.leb (amountCents E (Body.donationAmount body)) (S754_zero false) = true \/
  Body.email body = None \/
  Body.email body = Some "".

(** The creation requests that pass both checks of the handler. *)
Definition valid_creation (E : Env) (body : Body.Donation) : Prop :=
  Js.truthy (Body.donationAmount body) = true /\
  Js.truthy_text (Body.email body) = true /\
  Js.isNaN (amountCents E (Body.donationAmount body)) = false /\
  Js.leb (amountCents E (Body.donationAmount body)) (S754_zero false) = false.

Definition internal_error : Response :=
  json 500 (J_error "An internal server error occurred.").

Definition acknowledgement : Response := json 200 J_received.

(** The request is accepted (verified, or parsed) and its payload is the
    well-formed [event]. *)
Definition accepted (E : Env) (req : Body.Webhook) (event : Stripe.Event) : Prop :=
  exists payload,
    received_event E req = Ok payload /\ Stripe.view payload = Some event.

(** The calls a handler added to the trace of the world [w]. *)
Definition calls_made (w w' : World) : list Call :=
  skipn (List.length (calls w)) (calls w').

(** How the failure of the statement [q] shows in the response: the two
    status updates are inside a handler of their own, which logs the error
    and lets the request complete; the failure of any other statement
    reaches the catch-all middleware. *)
Definition failure_outcome (q : Sql) (res : Result Response) : Prop :=
  match q with
  | UPDATE_donations_WHERE_payment_intent_id _ _ => res = Ok acknowledgement
  | UPDATE_donations_WHERE_id _ _ =>
      exists rows, res = Ok (json 200 (J_donations rows))
  | _ => res = Ok internal_error
  end.

(** A handler run accounts for the statements that failed in it. *)
Definition accounted (E : Env) (w : World) (run : Result Response * World) : Prop :=
  exists made,
    calls (snd run) = calls w ++ made /\
    forall q, In (Db q) made -> db_fails E q = true ->
              failure_outcome q (fst run).

(** ** A concrete deployment, for examples *)

Module Demo.

(** 12.345, 10, 1e308, 1.005 and 1.115 as binary64 values. *)
Definition d12_345 : Js.Number := S754_finite false 0x18b0a3d70a3d71 (-49).
Definition d10 : Js.Number := S754_finite false 0x14000000000000 (-49).
Definition d1e308 : Js.Number := S754_finite false 0x11ccf385ebc8a0 971.
Definition d1_005 : Js.Number := S754_finite false 0x10147ae147ae14 (-52).
Definition d1_115 : Js.Number := S754_finite false 0x11d70a3d70a3d7 (-52).

Definition intent (amount : Js.Number) : Stripe.PaymentIntent :=
  Stripe.mkPaymentIntent "pi_1" "pi_1_secret_x" "requires_payment_method".

(** Payloads as [JSON.parse] returns them: an event of the given type for
    the intent [pi_1], and a succeeded event that has no [data]. *)
Definition payload (type : string) : Json.t :=
  Json.JObject
    [ ("id", Json.JString "evt_1");
      ("type", Json.JString type);
      ("data", Json.JObject
                 [ ("object", Json.JObject
                                [ ("id", Json.JString "pi_1");
                                  ("object", Json.JString "payment_intent") ]) ]) ].

Definition payload_without_data : Json.t :=
  Json.JObject
    [ ("id", Json.JString "evt_2");
      ("type", Json.JString "payment_intent.succeeded") ].

(** Stripe knows [pi_1] as succeeded and [pi_2] as still pending; any other
    lookup fails. No webhook secret; the database driver never fails;
    bcrypt refuses a password that is not a string. The parser knows three
    request bodies, named here by what they hold rather than spelled out,
    and refuses every other one. *)
Definition env : Env :=
  mkEnv None
    (fun amount _ _ => Ok (intent amount))
    (fun i =>
       if String.eqb i "pi_1" then Ok (Stripe.mkPaymentIntent i "s1" "succeeded")
       else if String.eqb i "pi_2" then Ok (Stripe.mkPaymentIntent i "s2" "pending")
       else Throw (mkError "No such payment_intent"))
    (fun _ _ _ => Throw (mkError "No signatures found"))
    (fun rawbody =>
       if String.eqb rawbody "succeeded pi_1"
       then Ok (payload "payment_intent.succeeded")
       else if String.eqb rawbody "created pi_1"
       then Ok (payload "payment_intent.created")
       else if String.eqb rawbody "succeeded, no data"
       then Ok payload_without_data
       else Throw (mkError "Unexpected token"))
    (fun pw =>
       match pw with
       | Js.Str s => Ok (String.append "$2b$10$" s)
       | _ => Throw (mkError "data must be a string or Buffer and salt must either be a salt string or a number of rounds")
       end)
    (fun pw hash =>
       match pw with
       | Js.Str s => Ok (String.eqb (String.append "$2b$10$" s) hash)
       | _ => Throw (mkError "data and hash must be strings")
       end)
    (fun _ => S754_nan)
    (fun _ => S754_nan)
    (fun _ => false)
    (fun _ => None)
    1700000000.

(** The same deployment with a database driver that fails on every
    statement. *)
Definition env_db_down : Env :=
  mkEnv None (paymentIntents_create env) (paymentIntents_retrieve env)
    (constructEvent env) (JSON_parse env) (bcrypt_hash env)
    (bcrypt_compare env) (StringToNumber env) (ObjectToNumber env)
    (fun _ => true) (sqlite_text env) (CURRENT_TIMESTAMP env).

(** The same deployment with a driver that fails on the status updates
    only. *)
Definition env_updates_fail : Env :=
  mkEnv None (paymentIntents_create env) (paymentIntents_retrieve env)
    (constructEvent env) (JSON_parse env) (bcrypt_hash env)
    (bcrypt_compare env) (StringToNumber env) (ObjectToNumber env)
    (fun q => match q with
              | UPDATE_donations_WHERE_payment_intent_id _ _
              | UPDATE_donations_WHERE_id _ _ => true
              | _ => false
              end)
    (sqlite_text env) (CURRENT_TIMESTAMP env).

(** The same deployment with Stripe refusing to create intents. *)
Definition env_stripe_down : Env :=
  mkEnv None (fun _ _ _ => Throw (mkError "api_connection_error"))
    (paymentIntents_retrieve env)
    (constructEvent env) (JSON_parse env) (bcrypt_hash env)
    (bcrypt_compare env) (StringToNumber env) (ObjectToNumber env)
    (db_fails env) (sqlite_text env) (CURRENT_TIMESTAMP env).

Definition row (i : Z) (pi st : string) (t : Z) : Donation :=
  mkDonation i (Js.of_Z 1000) (Some "donor@example.org") None None None None
    None pi st t.

Definition three_rows : list Donation :=
  [ row 1 "pi_1" "pending" 100;
    row 2 "pi_2" "pending" 200;
    row 3 "pi_3" "failed" 300 ].

Definition root : AdminUser := mkAdminUser 1 "root" "$2b$10$hunter2".

Definition empty_world : World := mkWorld (mkDatabase [] []) [] [] None.

Definition world : World :=
  mkWorld (mkDatabase three_rows [root]) [] [] None.

Definition admin_world : World :=
  mkWorld (mkDatabase three_rows [root]) [] [] (Some (mkSessionUser 1 "root")).

Definition form (amount : Js.Value) (mail : option string) : Body.Donation :=
  Body.mkDonation amount mail (Some "Ada") (Some "") None None None.

(** -5 as a binary64 value. *)
Definition minus_five : Js.Number := S754_finite true 0x14000000000000 (-50).

Definition ten_dollars : Body.Donation :=
  form (Js.Num d10) (Some "donor@example.org").

Definition succeeded_hook : Body.Webhook := Body.mkWebhook "succeeded pi_1" None.

Definition hook_without_data : Body.Webhook :=
  Body.mkWebhook "succeeded, no data" None.

Definition succeeded_event : Stripe.Event :=
  Stripe.mkEvent "payment_intent.succeeded" "pi_1".

Definition insert_ten_dollars : Sql :=
  INSERT_INTO_donations (Js.of_Z 1000) (Some "donor@example.org") (Some "Ada")
    None None None None "pi_1" "pending".

Definition lookup_error : JsError := mkError "api_connection_error".

End Demo.

(** ** Vocabulary of the further properties *)

(** A donation row as the creation handler writes it: an email, an amount
    that is a number above zero, and optional fields that are NULL rather
    than empty. *)
Definition well_formed (d : Donation) : Prop :=
  Js.truthy_text (email d) = true /\
  Js.isNaN (donation_amount d) = false /\
  Js.leb (donation_amount d) (S754_zero false) = false /\
  first_name d <> Some "" /\
  last_name d <> Some "" /\
  card_name d <> Some "" /\
  country d <> Some "" /\
  postal_code d <> Some "".

(** The intents looked up at Stripe, in the order of the calls. *)
Fixpoint lookups (l : list Call) : list string :=
  match l with
  | [] => []
  | StripeRetrieve intent :: r => intent :: lookups r
  | _ :: r => lookups r
  end.

Definition is_pending (d : Donation) : bool :=
  String.eqb (payment_intent_status d) "pending".

(** ** The donation form script ([payment.js]) *)

Module Client.

(** A [donationSelected] event: [e.detail] is missing, so that reading
    [e.detail.amount] throws, or [e.detail.amount] is some value. *)
Inductive DonationSelected :=
| NoDetail
| Detail (amount : Js.Value).

Record State := mkState {
  selectedDonation : Js.Number;
  console : list string
}.

(** [let selectedDonation = 0] *)
Definition initial : State := mkState (S754_zero false) [].

Section Listener.

(** [parseInt(v, 10)] *)
Variable parseInt : Js.Value -> Js.Number.

(** [document.addEventListener('donationSelected', function(e) {...})] *)
Definition donationSelected (st : State) (e : DonationSelected) : State :=
  match e with
  | Detail amount =>
      let selected := parseInt amount in
      if Js.isNaN selected || Js.leb selected (S754_zero false)
      then mkState (S754_zero false)
             (console st ++ ["Invalid donation amount selected:"])
      else mkState selected (console st)
  | NoDetail =>
      mkState (S754_zero false)
        (console st ++ ["Error processing donationSelected event:"])
  end.

End Listener.

End Client.

(** The environment in which every status update of the row [rowid]
    fails. *)
Definition with_failing_update (E : Env) (rowid : Z) : Env :=
  mkEnv (STRIPE_WEBHOOK_SECRET E) (paymentIntents_create E)
    (paymentIntents_retrieve E) (constructEvent E) (JSON_parse E)
    (bcrypt_hash E) (bcrypt_compare E) (StringToNumber E) (ObjectToNumber E)
    (fun q => match q with
              | UPDATE_donations_WHERE_id _ i => (i =? rowid) || db_fails E q
              | _ => db_fails E q
              end)
    (sqlite_text E) (CURRENT_TIMESTAMP E).

(** ** Further fixtures *)

Module Fixtures.

(** The demo deployment with a webhook secret: every signature is refused. *)
Definition env_signed : Env :=
  mkEnv (Some "whsec_demo") (paymentIntents_create Demo.env)
    (paymentIntents_retrieve Demo.env) (constructEvent Demo.env)
    (JSON_parse Demo.env) (bcrypt_hash Demo.env) (bcrypt_compare Demo.env)
    (StringToNumber Demo.env) (ObjectToNumber Demo.env) (db_fails Demo.env)
    (sqlite_text Demo.env) (CURRENT_TIMESTAMP Demo.env).

Definition signature_error : JsError := mkError "No signatures found".

Definition root_credentials : Body.Credentials :=
  Body.mkCredentials (Some "root") (Js.Str "hunter2").

(** [parseInt] of a page that only ever sends the number 25 or rubbish. *)
Definition parseInt (v : Js.Value) : Js.Number :=
  match v with
  | Js.Num x => x
  | _ => S754_nan
  end.

End Fixtures.

(** * Properties *)

(** ** Binary64 arithmetic *)

(** *** The mantissa of a rounded result is below 2^53 *)

Lemma shr_1_m mrs : 0 <= shr_m mrs -> shr_m (shr_1 mrs) = shr_m mrs / 2.
Proof.
  destruct mrs as [m r s]. cbn [shr_m]. intros Hm. unfold shr_1.
  destruct m as [|[p|p|]|p]; cbn [shr_m]; try reflexivity; try lia.
  - apply Z.div_unique with (r := 1); lia.
  - apply Z.div_unique with (r := 0); lia.
Qed.

Lemma pow2_xO p : 2 ^ Zpos p~0 = 2 ^ Zpos p * 2 ^ Zpos p.
Proof. rewrite <- Z.pow_add_r by lia. f_equal. lia. Qed.

Lemma pow2_xI p : 2 ^ Zpos p~1 = 2 * (2 ^ Zpos p * 2 ^ Zpos p).
Proof.
  rewrite <- Z.pow_add_r, <- Z.pow_succ_r by lia. f_equal. lia.
Qed.

Lemma iter_shr_1_m p : forall mrs,
  0 <= shr_m mrs ->
  shr_m (iter_pos shr_1 p mrs) = shr_m mrs / 2 ^ Zpos p.
Proof.
  induction p as [p IH | p IH |]; intros mrs Hm; cbn [iter_pos].
  - assert (H1 : 0 <= shr_m (shr_1 mrs)).
    { rewrite shr_1_m by assumption. apply Z.div_pos; lia. }
    assert (H2 : 0 <= shr_m (iter_pos shr_1 p (shr_1 mrs))).
    { rewrite IH by assumption. apply Z.div_pos; lia. }
    rewrite IH, IH, shr_1_m by assumption.
    rewrite !Z.div_div by lia. now rewrite pow2_xI.
  - assert (H2 : 0 <= shr_m (iter_pos shr_1 p mrs)).
    { rewrite IH by assumption. apply Z.div_pos; lia. }
    rewrite IH, IH by assumption.
    rewrite !Z.div_div by lia. now rewrite pow2_xO.
  - rewrite shr_1_m by assumption. reflexivity.
Qed.

Lemma digits2_pos_bound p : Zpos p < 2 ^ Zpos (digits2_pos p).
Proof.
  induction p as [p IH | p IH |]; cbn [digits2_pos].
  - rewrite Pos2Z.inj_succ, Z.pow_succ_r by lia. lia.
  - rewrite Pos2Z.inj_succ, Z.pow_succ_r by lia. lia.
  - reflexivity.
Qed.

Lemma Zdigits2_bound m : 0 <= m -> m < 2 ^ Zdigits2 m.
Proof.
  destruct m as [|p|p]; cbn [Zdigits2]; intros H.
  - reflexivity.
  - apply digits2_pos_bound.
  - lia.
Qed.

Lemma shr_record_of_loc_m m l : shr_m (shr_record_of_loc m l) = m.
Proof. destruct l as [|[| |]]; reflexivity. Qed.

Lemma shr_fexp_m_bound m e l :
  0 <= m ->
  0 <= shr_m (fst (shr_fexp Js.prec Js.emax m e l)) < 2 ^ 53.
Proof.
  intros Hm. unfold shr_fexp, shr.
  pose proof (Zdigits2_bound m Hm) as Hd.
  assert (Hn : Zdigits2 m - 53 <= fexp Js.prec Js.emax (Zdigits2 m + e) - e).
  { unfold fexp, Js.prec. lia. }
  assert (Hd0 : 0 <= Zdigits2 m).
  { destruct m; cbn; lia. }
  destruct (fexp Js.prec Js.emax (Zdigits2 m + e) - e) as [|n|n]; cbn [fst].
  - rewrite shr_record_of_loc_m. split; [lia|].
    eapply Z.lt_le_trans; [exact Hd|]. apply Z.pow_le_mono_r; lia.
  - rewrite iter_shr_1_m by (rewrite shr_record_of_loc_m; lia).
    rewrite shr_record_of_loc_m. split; [apply Z.div_pos; lia|].
    apply Z.div_lt_upper_bound; [lia|].
    rewrite <- Z.pow_add_r by lia.
    eapply Z.lt_le_trans; [exact Hd|]. apply Z.pow_le_mono_r; lia.
  - rewrite shr_record_of_loc_m. split; [lia|].
    eapply Z.lt_le_trans; [exact Hd|]. apply Z.pow_le_mono_r; lia.
Qed.

Lemma round_nearest_even_nonneg m l : 0 <= m -> 0 <= round_nearest_even m l.
Proof.
  intros H. unfold round_nearest_even.
  destruct l as [|[| |]]; try lia. destruct (Z.even m); lia.
Qed.

Lemma binary_round_aux_mantissa s m e l s' m' e' :
  0 <= m ->
  binary_round_aux Js.prec Js.emax s m e l = S754_finite s' m' e' ->
  Zpos m' < 2 ^ 53.
Proof.
  intros Hm. unfold binary_round_aux.
  destruct (shr_fexp Js.prec Js.emax m e l) as [mrs1 e1] eqn:H1.
  pose proof (shr_fexp_m_bound m e l Hm) as B1. rewrite H1 in B1. cbn [fst] in B1.
  set (m2 := round_nearest_even (shr_m mrs1) (loc_of_shr_record mrs1)).
  assert (Hm2 : 0 <= m2) by (apply round_nearest_even_nonneg; lia).
  pose proof (shr_fexp_m_bound m2 e1 loc_Exact Hm2) as B2.
  destruct (shr_fexp Js.prec Js.emax m2 e1 loc_Exact) as [mrs2 e2].
  cbn [fst] in B2.
  destruct (shr_m mrs2) as [|p|p]; try discriminate.
  destruct (e2 <=? Js.emax - Js.prec); try discriminate.
  intros H. inversion H; subst. lia.
Qed.

Lemma mul_mantissa x y s m e :
  Js.mul x y = S754_finite s m e -> Zpos m < 2 ^ 53.
Proof.
  unfold Js.mul, SFmul.
  destruct x as [sx|sx| |sx mx ex], y as [sy|sy| |sy my ey]; try discriminate.
  apply binary_round_aux_mantissa. lia.
Qed.

(** *** Integers below 2^53 are represented exactly *)

Lemma digits2_pos_lower p : 2 ^ (Zpos (digits2_pos p) - 1) <= Zpos p.
Proof.
  induction p as [p IH | p IH |]; cbn [digits2_pos].
  - rewrite Pos2Z.inj_succ.
    replace (Z.succ (Zpos (digits2_pos p)) - 1) with (Z.succ (Zpos (digits2_pos p) - 1)) by lia.
    rewrite Z.pow_succ_r by lia. lia.
  - rewrite Pos2Z.inj_succ.
    replace (Z.succ (Zpos (digits2_pos p)) - 1) with (Z.succ (Zpos (digits2_pos p) - 1)) by lia.
    rewrite Z.pow_succ_r by lia. lia.
  - cbn. lia.
Qed.

Lemma digits2_pos_iter_xO p sh :
  digits2_pos (Pos.iter xO p sh) = (digits2_pos p + sh)%positive.
Proof.
  induction sh as [|sh IH] using Pos.peano_ind.
  - cbn. now rewrite Pos.add_1_r.
  - rewrite Pos.iter_succ. cbn [digits2_pos]. rewrite IH. lia.
Qed.

Lemma iter_xO_value p sh : Zpos (Pos.iter xO p sh) = Zpos p * 2 ^ Zpos sh.
Proof.
  induction sh as [|sh IH] using Pos.peano_ind.
  - cbn. lia.
  - rewrite Pos.iter_succ, Pos2Z.inj_xO, IH, Pos2Z.inj_succ, Z.pow_succ_r by lia.
    ring.
Qed.

Lemma binary_round_aux_canonical s m e :
  Zpos (digits2_pos m) = 53 -> -1074 <= e <= 971 ->
  binary_round_aux Js.prec Js.emax s (Zpos m) e loc_Exact = S754_finite s m e.
Proof.
  intros Hd He.
  assert (Hs : shr_fexp Js.prec Js.emax (Zpos m) e loc_Exact =
               (Build_shr_record (Zpos m) false false, e)).
  { unfold shr_fexp. cbn [Zdigits2]. rewrite Hd.
    replace (fexp Js.prec Js.emax (53 + e) - e) with 0
      by (unfold fexp, emin, Js.prec, Js.emax; lia).
    reflexivity. }
  unfold binary_round_aux. rewrite Hs. cbn [shr_m loc_of_shr_record round_nearest_even].
  rewrite Hs. cbn [shr_m].
  replace (e <=? Js.emax - Js.prec) with true
    by (symmetry; apply Z.leb_le; unfold Js.emax, Js.prec; lia).
  reflexivity.
Qed.

Lemma binary_round_exact s p :
  Zpos p < 2 ^ 53 ->
  (Js.to_Q (binary_round Js.prec Js.emax s p 0) == inject_Z (cond_Zopp s (Zpos p)))%Q.
Proof.
  intros Hp.
  pose proof (digits2_pos_lower p) as Hl.
  assert (Hd : Zpos (digits2_pos p) <= 53).
  { destruct (Z_le_gt_dec (Zpos (digits2_pos p)) 53) as [|Hgt]; [assumption|].
    exfalso. assert (2 ^ 53 <= 2 ^ (Zpos (digits2_pos p) - 1))
      by (apply Z.pow_le_mono_r; lia). lia. }
  unfold binary_round.
  replace (fexp Js.prec Js.emax (Zpos (digits2_pos p) + 0))
    with (Zpos (digits2_pos p) - 53)
    by (unfold fexp, emin, Js.prec, Js.emax; lia).
  unfold shl_align.
  destruct (Zpos (digits2_pos p) - 53 - 0) as [|sh|sh] eqn:Hsh; try lia.
  - rewrite binary_round_aux_canonical by lia.
    replace (Zpos (digits2_pos p) - 53) with 0 by lia.
    unfold Js.to_Q. now rewrite Z.mul_1_r.
  - rewrite binary_round_aux_canonical
      by (try rewrite digits2_pos_iter_xO; lia).
    replace (Zpos (digits2_pos p) - 53) with (Zneg sh) by lia.
    unfold Js.to_Q, Qeq. cbn [Qnum Qden inject_Z].
    rewrite Pos2Z.inj_pow, iter_xO_value. destruct s; cbn [cond_Zopp]; lia.
Qed.

Lemma binary_normalize_exact s n :
  0 <= n < 2 ^ 53 ->
  (Js.to_Q (binary_normalize Js.prec Js.emax (cond_Zopp s n) 0 s)
   == inject_Z (cond_Zopp s n))%Q.
Proof.
  intros Hn. destruct n as [|p|p]; try lia.
  - destruct s; reflexivity.
  - destruct s; cbn [cond_Zopp Z.opp binary_normalize].
    + apply (binary_round_exact true p). lia.
    + apply (binary_round_exact false p). lia.
Qed.

(** *** [Math.round] rounds half-up *)

Lemma round_magnitude_floor s m k :
  0 < k ->
  cond_Zopp s (Js.round_magnitude s m k)
  = (cond_Zopp s (Zpos m) * 2 + 2 ^ k) / (2 ^ k * 2).
Proof.
  intros Hk. unfold Js.round_magnitude.
  rewrite Z.shiftr_div_pow2, Z.land_ones, Z.shiftl_1_l by lia.
  assert (Hp : 2 ^ k = 2 * 2 ^ (k - 1)).
  { rewrite <- Z.pow_succ_r by lia. f_equal. lia. }
  assert (Hpos : 0 < 2 ^ (k - 1)) by (apply Z.pow_pos_nonneg; lia).
  set (P := 2 ^ (k - 1)) in *. rewrite Hp.
  pose proof (Z.div_mod (Zpos m) (2 * P) ltac:(lia)) as Hdm.
  pose proof (Z.mod_pos_bound (Zpos m) (2 * P) ltac:(lia)) as Hr.
  set (q := Zpos m / (2 * P)) in *. set (r := Zpos m mod (2 * P)) in *.
  destruct s; cbn [cond_Zopp].
  - destruct (Z.ltb_spec P r).
    + apply Z.div_unique with (r := 6 * P - 2 * r); nia.
    + apply Z.div_unique with (r := 2 * P - 2 * r); nia.
  - destruct (Z.leb_spec P r).
    + apply Z.div_unique with (r := 2 * r - 2 * P); nia.
    + apply Z.div_unique with (r := 2 * r + 2 * P); nia.
Qed.

Lemma round_half_up_integer n : round_half_up (inject_Z n) = n.
Proof.
  unfold round_half_up, Qfloor, Qplus, inject_Z. cbn [Qnum Qden].
  symmetry. apply Z.div_unique with (r := 1); lia.
Qed.

Lemma round_half_up_fraction a k :
  round_half_up (Qmake a (2 ^ k)%positive) = (a * 2 + 2 ^ Zpos k) / (2 ^ Zpos k * 2).
Proof.
  unfold round_half_up, Qfloor, Qplus. cbn [Qnum Qden].
  rewrite Pos2Z.inj_mul, Pos2Z.inj_pow. f_equal. lia.
Qed.

Lemma Math_round_value s m e :
  Zpos m < 2 ^ 53 ->
  (Js.to_Q (Js.Math_round (S754_finite s m e))
   == inject_Z (round_half_up (Js.to_Q (S754_finite s m e))))%Q.
Proof.
  intros Hm. unfold Js.Math_round.
  destruct e as [|e|k].
  - cbn [Z.leb Z.compare]. unfold Js.to_Q. now rewrite round_half_up_integer.
  - cbn [Z.leb Z.compare]. unfold Js.to_Q. now rewrite round_half_up_integer.
  - cbn [Z.leb Z.compare Z.opp].
    assert (Hfloor := round_magnitude_floor s m (Zpos k) ltac:(lia)).
    destruct (Z.eqb_spec (Z.land (Zpos m) (Z.ones (Zpos k))) 0) as [Hr | Hr].
    + unfold Js.to_Q at 2. rewrite round_half_up_fraction, <- Hfloor.
      unfold Js.round_magnitude. rewrite Hr.
      rewrite Z.land_ones in Hr by lia.
      rewrite Z.shiftr_div_pow2, Z.shiftl_1_l by lia.
      assert (Hpos : 0 < 2 ^ (Zpos k - 1)) by (apply Z.pow_pos_nonneg; lia).
      replace (2 ^ (Zpos k - 1) <? 0) with false by (symmetry; apply Z.ltb_ge; lia).
      replace (2 ^ (Zpos k - 1) <=? 0) with false by (symmetry; apply Z.leb_gt; lia).
      unfold Js.to_Q, Qeq. cbn [Qnum Qden inject_Z].
      rewrite Pos2Z.inj_pow.
      pose proof (Z.div_mod (Zpos m) (2 ^ Zpos k) ltac:(lia)) as Hdm.
      rewrite Hr in Hdm.
      destruct s; cbn [cond_Zopp]; nia.
    + unfold Js.to_Q at 2. rewrite round_half_up_fraction, <- Hfloor.
      apply binary_normalize_exact.
      unfold Js.round_magnitude.
      rewrite Z.shiftr_div_pow2 by lia.
      assert (Hq : 0 <= Zpos m / 2 ^ Zpos k < 2 ^ 52).
      { split; [apply Z.div_pos; lia|].
        apply Z.div_lt_upper_bound; [lia|].
        assert (2 ^ 1 <= 2 ^ Zpos k) by (apply Z.pow_le_mono_r; lia).
        change (2 ^ 53) with (2 * 2 ^ 52) in Hm. change (2 ^ 1) with 2 in *.
        assert (0 < 2 ^ 52) by reflexivity. nia. }
      change (2 ^ 53) with (2 * 2 ^ 52).
      destruct s; [destruct (_ <? _) | destruct (_ <=? _)]; lia.
Qed.

Lemma Math_round_half_up x :
  Js.isFinite x = true ->
  (forall s m e, x = S754_finite s m e -> Zpos m < 2 ^ 53) ->
  (Js.to_Q (Js.Math_round x) == inject_Z (round_half_up (Js.to_Q x)))%Q.
Proof.
  intros Hf Hm. destruct x as [s|s| |s m e]; try discriminate.
  - reflexivity.
  - apply Math_round_value. now apply (Hm s m e).
Qed.

(** ** Donation creation *)

Lemma next_rowid_fresh (l : list Z) : ~ In (next_rowid l) l.
Proof.
  assert (Hle : forall x, In x l -> x <= fold_right Z.max 0 l).
  { induction l as [|a l IH]; cbn [fold_right In]; intros x Hx; [contradiction|].
    destruct Hx as [-> | Hx]; [lia | specialize (IH x Hx); lia]. }
  intros Hin. apply Hle in Hin. unfold next_rowid in Hin. lia.
Qed.

Section Creation.

Variable E : Env.

(** A request that fails either check is answered 400 in the world it
    arrived in. *)
Lemma create_payment_intent_first_check body w :
  Js.truthy (Body.donationAmount body) && Js.truthy_text (Body.email body) = false ->
  create_payment_intent E body w =
  (Ok (json 400 (J_error "Donation amount and email are required.")), w).
Proof.
  intros H. unfold create_payment_intent, try_catch.
  rewrite <- negb_andb, H. reflexivity.
Qed.

Lemma create_payment_intent_second_check body w :
  Js.truthy (Body.donationAmount body) && Js.truthy_text (Body.email body) = true ->
  Js.isNaN (amountCents E (Body.donationAmount body))
    || Js.leb (amountCents E (Body.donationAmount body)) (S754_zero false) = true ->
  create_payment_intent E body w =
  (Ok (json 400 (J_error "Invalid donation amount.")), w).
Proof.
  intros H1 H2. unfold create_payment_intent, try_catch.
  rewrite <- negb_andb, H1. cbn [negb]. rewrite H2. reflexivity.
Qed.

(** Past the two checks the handler calls Stripe, then the store. *)
Lemma create_payment_intent_valid_run body w :
  valid_creation E body ->
  create_payment_intent E body w =
  let cents := amountCents E (Body.donationAmount body) in
  let w1 := mkWorld (db w)
              (calls w ++ [StripeCreate cents "usd" (Body.email body)])
              (console w) (session_user w) in
  match paymentIntents_create E cents "usd" (Body.email body) with
  | Throw err =>
      (Ok internal_error,
       mkWorld (db w1) (calls w1)
         ((console w ++ ["Error in /create-payment-intent:"]) ++ ["Unhandled error:"])
         (session_user w))
  | Ok paymentIntent =>
      let q := INSERT_INTO_donations cents (Body.email body)
                 (Js.or_null (Body.firstName body))
                 (Js.or_null (Body.lastName body))
                 (Js.or_null (Body.cardName body))
                 (Js.or_null (Body.country body))
                 (Js.or_null (Body.postalCode body))
                 (Stripe.id paymentIntent) "pending" in
      if db_fails E q then
        (Ok internal_error,
         mkWorld (db w) (calls w1 ++ [Db q])
           ((console w ++ ["Error in /create-payment-intent:"]) ++ ["Unhandled error:"])
           (session_user w))
      else
        (Ok (json 200 (J_clientSecret (Stripe.client_secret paymentIntent))),
         mkWorld
           (mkDatabase
              (donations (db w) ++
                 [mkDonation (next_rowid (map id (donations (db w)))) cents
                    (Body.email body)
                    (Js.or_null (Body.firstName body))
                    (Js.or_null (Body.lastName body))
                    (Js.or_null (Body.cardName body))
                    (Js.or_null (Body.country body))
                    (Js.or_null (Body.postalCode body))
                    (Stripe.id paymentIntent) "pending" (CURRENT_TIMESTAMP E)])
              (admin_users (db w)))
           (calls w1 ++ [Db q]) (console w) (session_user w))
  end.
Proof.
  intros (Ha & He & Hn & Hp).
  unfold create_payment_intent, try_catch.
  rewrite Ha, He, Hn, Hp. cbn [negb orb].
  unfold bind at 1. unfold stripe_create at 1. unfold bind at 1.
  unfold record_call at 1. unfold await at 1. cbn beta iota.
  destruct (paymentIntents_create E _ _ _) as [p | err]; cbn.
  - unfold dbRun, bind, record_call. cbn.
    destruct (db_fails E _); reflexivity.
  - reflexivity.
Qed.

(** C4. RecordDonationAttempt input validation: a creation request whose
    amount is missing or converts to a non-positive number of cents, or
    whose email is missing or empty, is answered 400 and leaves the world
    as it was: no call to Stripe, no statement sent to the store, no row
    created. *)
Theorem create_payment_intent_rejects_invalid body w :
  invalid_creation E body ->
  exists msg,
    create_payment_intent E body w = (Ok (json 400 (J_error msg)), w).
Proof.
  intros H.
  destruct (Js.truthy (Body.donationAmount body)
            && Js.truthy_text (Body.email body)) eqn:Hc.
  - exists "Invalid donation amount.".
    apply create_payment_intent_second_check; [exact Hc|].
    apply andb_prop in Hc. destruct Hc as [Ha He].
    destruct H as [H | [H | [H | [H | H]]]].
    + rewrite H in Ha. discriminate.
    + rewrite H in Ha. discriminate.
    + rewrite H. apply orb_true_r.
    + rewrite H in He. discriminate.
    + rewrite H in He. discriminate.
  - exists "Donation amount and email are required.".
    now apply create_payment_intent_first_check.
Qed.

(** C5. RecordDonationAttempt atomicity on upstream failure: when the
    request is valid and Stripe refuses to create the intent, the caller
    gets the 500 of the catch-all middleware, the database is the one
    before the request, and the only call made is the one to Stripe. *)
Theorem create_payment_intent_upstream_failure body w err :
  valid_creation E body ->
  paymentIntents_create E (amountCents E (Body.donationAmount body)) "usd"
    (Body.email body) = Throw err ->
  fst (create_payment_intent E body w) = Ok internal_error /\
  db (snd (create_payment_intent E body w)) = db w /\
  calls (snd (create_payment_intent E body w)) =
    calls w ++ [StripeCreate (amountCents E (Body.donationAmount body)) "usd"
                  (Body.email body)].
Proof.
  intros Hv Hs. rewrite (create_payment_intent_valid_run body w Hv).
  cbv zeta. rewrite Hs. cbn. auto.
Qed.

(** C6. RecordDonationAttempt success postcondition: when the request is
    valid, Stripe returns an intent with a non-empty id and client secret
    and the INSERT goes through, the table grows by exactly one row, that
    row is pending and carries the intent's non-empty id, nothing else in
    the database changes, and the caller receives the intent's non-empty
    client secret. *)
Theorem create_payment_intent_success body w paymentIntent :
  valid_creation E body ->
  paymentIntents_create E (amountCents E (Body.donationAmount body)) "usd"
    (Body.email body) = Ok paymentIntent ->
  Stripe.id paymentIntent <> "" ->
  Stripe.client_secret paymentIntent <> "" ->
  (forall q, db_fails E q = false) ->
  exists row secret,
    fst (create_payment_intent E body w) = Ok (json 200 (J_clientSecret secret)) /\
    secret = Stripe.client_secret paymentIntent /\ secret <> "" /\
    donations (db (snd (create_payment_intent E body w))) =
      donations (db w) ++ [row] /\
    admin_users (db (snd (create_payment_intent E body w))) = admin_users (db w) /\
    payment_intent_status row = "pending" /\
    payment_intent_id row = Stripe.id paymentIntent /\
    payment_intent_id row <> "" /\
    ~ In (id row) (map id (donations (db w))).
Proof.
  intros Hv Hs Hid Hsec Hdb.
  rewrite (create_payment_intent_valid_run body w Hv).
  cbv zeta. rewrite Hs, Hdb. cbn.
  eexists. eexists. repeat split; try reflexivity; try assumption.
  exact (next_rowid_fresh _).
Qed.

End Creation.

(** ** Webhook *)


Lemma set_status_same (d : Donation) : set_status (payment_intent_status d) d = d.
Proof. destruct d; reflexivity. Qed.

Lemma same_but_status_refl (d : Donation) : same_but_status d d.
Proof. repeat split. Qed.

Lemma same_but_status_set (s : string) (d : Donation) :
  same_but_status d (set_status s d).
Proof. repeat split. Qed.

Lemma Forall2_map_right {A B} (P : A -> B -> Prop) (f : A -> B) (l : list A) :
  (forall a, In a l -> P a (f a)) -> Forall2 P l (map f l).
Proof.
  induction l as [|a l IH]; cbn [map]; intros H; constructor.
  - apply H. now left.
  - apply IH. intros b Hb. apply H. now right.
Qed.

Section Webhook.

Variable E : Env.

Lemma view_reads payload event :
  Stripe.view payload = Some event ->
  Json.get (Some payload) "type" = Ok (Some (Json.JString (Stripe.type event))) /\
  exists data object,
    Json.get (Some payload) "data" = Ok data /\
    Json.get data "object" = Ok object /\
    Json.get object "id"
      = Ok (Some (Json.JString (Stripe.data_object_id event))).
Proof.
  unfold Stripe.view.
  destruct (Json.get (Some payload) "type") as [[[ | | |ty| | ]|]|]; try discriminate.
  destruct (Json.get (Some payload) "data") as [data|] eqn:Hd; [|discriminate].
  destruct (Json.get data "object") as [object|] eqn:Ho; [|discriminate].
  destruct (Json.get object "id") as [[[ | | |i| | ]|]|] eqn:Hi; try discriminate.
  intros H. inversion H; subst. cbn [Stripe.type Stripe.data_object_id].
  split; [reflexivity|]. exists data, object. auto.
Qed.

Lemma webhook_run req payload event w :
  received_event E req = Ok payload ->
  Stripe.view payload = Some event ->
  webhook E req w =
  if String.eqb (Stripe.type event) "payment_intent.succeeded" then
    let q := UPDATE_donations_WHERE_payment_intent_id "succeeded"
               (Some (Json.JString (Stripe.data_object_id event))) in
    if db_fails E q then
      (Ok acknowledgement,
       mkWorld (db w) (calls w ++ [Db q])
         (console w ++ ["DB Update Error in webhook:"]) (session_user w))
    else
      (Ok acknowledgement,
       mkWorld
         (mkDatabase
            (map (fun r =>
                    if String.eqb (payment_intent_id r) (Stripe.data_object_id event)
                    then set_status "succeeded" r else r)
               (donations (db w)))
            (admin_users (db w)))
         (calls w ++ [Db q])
         (console w ++ ["Donation record updated for PaymentIntent"])
         (session_user w))
  else (Ok acknowledgement, w).
Proof.
  intros H Hv. apply view_reads in Hv.
  destruct Hv as (Ht & data & object & Hd & Ho & Hi).
  unfold webhook. rewrite H. unfold bind at 1, await. rewrite Ht.
  cbn [Json.is_string].
  destruct (String.eqb (Stripe.type event) "payment_intent.succeeded"); [|reflexivity].
  cbv zeta. unfold bind, await. rewrite Hd, Ho, Hi.
  unfold try_catch, dbRun, bind, record_call. cbn.
  destruct (db_fails E _); reflexivity.
Qed.





End Webhook.


(** ** Listing and reconciliation *)

(** *** [ORDER BY created_at DESC] *)

Lemma insert_desc_perm d l : Permutation (d :: l) (insert_desc d l).
Proof.
  induction l as [|x r IH]; cbn [insert_desc]; [reflexivity|].
  destruct (created_at x <=? created_at d); [reflexivity|].
  rewrite perm_swap. now constructor.
Qed.

Lemma order_by_created_at_desc_perm l :
  Permutation (order_by_created_at_desc l) l.
Proof.
  induction l as [|d l IH]; cbn [order_by_created_at_desc fold_right];
    [constructor|].
  rewrite <- insert_desc_perm. constructor. exact IH.
Qed.

Lemma insert_desc_hd a d l :
  newest_first a d -> HdRel newest_first a l ->
  HdRel newest_first a (insert_desc d l).
Proof.
  intros Had Hl. destruct l as [|x r]; cbn [insert_desc]; [now constructor|].
  destruct (created_at x <=? created_at d); constructor; [exact Had|].
  now inversion Hl.
Qed.

Lemma insert_desc_sorted d l :
  Sorted newest_first l -> Sorted newest_first (insert_desc d l).
Proof.
  induction l as [|x r IH]; cbn [insert_desc]; intros Hs.
  - repeat constructor.
  - inversion Hs as [|? ? Hr Hx]; subst.
    destruct (Z.leb_spec (created_at x) (created_at d)) as [Hle | Hlt].
    + constructor; [exact Hs|]. constructor. exact Hle.
    + constructor; [now apply IH|].
      apply insert_desc_hd; [|exact Hx]. unfold newest_first. lia.
Qed.

Lemma order_by_created_at_desc_sorted l :
  Sorted newest_first (order_by_created_at_desc l).
Proof.
  induction l as [|d l IH]; cbn [order_by_created_at_desc fold_right];
    [constructor|].
  now apply insert_desc_sorted.
Qed.

(** *** One turn of the loop *)

Section Reconciliation.

Variable E : Env.

Lemma reconciled_status_update d :
  reconciled_status E d =
  match store_update E d with
  | Some s => s
  | None => payment_intent_status d
  end.
Proof.
  unfold reconciled_status, store_update.
  destruct (String.eqb (payment_intent_status d) "pending"); [|reflexivity].
  destruct (paymentIntents_retrieve E _) as [p | err]; [|reflexivity].
  destruct (String.eqb_spec (Stripe.status p) (payment_intent_status d)) as [Heq | Hne].
  - rewrite Heq. now destruct (db_fails E _).
  - now destruct (db_fails E _).
Qed.

Lemma refresh_run d w :
  exists w',
    refresh E d w = (Ok (reconciled E d), w') /\
    donations (db w') = apply_update E (donations (db w)) d /\
    admin_users (db w') = admin_users (db w) /\
    calls w' = calls w ++ reconciliation_calls E d /\
    session_user w' = session_user w.
Proof.
  unfold reconciled. rewrite reconciled_status_update.
  unfold refresh, apply_update, store_update, reconciliation_calls.
  destruct (String.eqb (payment_intent_status d) "pending").
  2:{ exists w. cbn. rewrite set_status_same, app_nil_r. auto. }
  unfold try_catch, bind, stripe_retrieve, bind, record_call, await. cbn.
  destruct (paymentIntents_retrieve E _) as [p | err]; cbn.
  2:{ eexists. rewrite set_status_same. split; [reflexivity|]. cbn. auto. }
  destruct (String.eqb (Stripe.status p) (payment_intent_status d)); cbn.
  { eexists. rewrite set_status_same. split; [reflexivity|]. cbn. auto. }
  unfold dbRun, bind, record_call. cbn.
  destruct (db_fails E _); cbn.
  - eexists. rewrite set_status_same. split; [reflexivity|]. cbn.
    rewrite <- app_assoc. auto.
  - eexists. split; [reflexivity|]. cbn. rewrite <- app_assoc. auto.
Qed.

Lemma for_of_refresh_run l : forall w,
  exists w',
    for_of (refresh E) l w = (Ok (map (reconciled E) l), w') /\
    donations (db w') = fold_left (apply_update E) l (donations (db w)) /\
    admin_users (db w') = admin_users (db w) /\
    calls w' = calls w ++ flat_map (reconciliation_calls E) l /\
    session_user w' = session_user w.
Proof.
  induction l as [|d l IH]; intros w.
  - exists w. cbn. rewrite app_nil_r. auto.
  - destruct (refresh_run d w) as (w1 & H0 & H2 & H3 & H4 & H5).
    destruct (IH w1) as (w2 & I0 & I2 & I3 & I4 & I5).
    exists w2. cbn [for_of map fold_left flat_map]. unfold bind.
    rewrite H0, I0. cbn [ret].
    rewrite I2, I3, I4, I5, H2, H3, H4, H5, app_assoc. auto.
Qed.

(** *** The store after the pass *)

Lemma fold_apply_update l : forall rows,
  fold_left (apply_update E) l rows =
  map (fun r => fold_left (touch E) l r) rows.
Proof.
  induction l as [|d l IH]; intros rows; cbn [fold_left].
  - now rewrite map_id.
  - rewrite IH. unfold apply_update.
    destruct (store_update E d) as [s|] eqn:Hs; [rewrite map_map|];
      apply map_ext; intros r; f_equal; unfold touch; now rewrite Hs.
Qed.

Lemma touch_id r d : id (touch E r d) = id r.
Proof.
  unfold touch. destruct (store_update E d); [|reflexivity].
  now destruct (id r =? id d).
Qed.

Lemma touch_other r d : id r <> id d -> touch E r d = r.
Proof.
  intros H. unfold touch. destruct (store_update E d); [|reflexivity].
  destruct (Z.eqb_spec (id r) (id d)); [contradiction | reflexivity].
Qed.

Lemma touch_self d : touch E d d = reconciled E d.
Proof.
  unfold touch, reconciled. rewrite reconciled_status_update.
  destruct (store_update E d).
  - now rewrite Z.eqb_refl.
  - now rewrite set_status_same.
Qed.

Lemma fold_touch_absent l : forall r,
  ~ In (id r) (map id l) -> fold_left (touch E) l r = r.
Proof.
  induction l as [|d l IH]; intros r Hr; cbn [fold_left]; [reflexivity|].
  cbn [map In] in Hr. rewrite touch_other by intuition congruence.
  apply IH. intuition.
Qed.

Lemma fold_touch_present l : forall r,
  NoDup (map id l) -> In r l -> fold_left (touch E) l r = reconciled E r.
Proof.
  induction l as [|d l IH]; intros r Hnd Hr; [contradiction|].
  cbn [map] in Hnd. inversion Hnd as [|? ? Hd Hl]; subst.
  cbn [fold_left]. destruct Hr as [-> | Hr].
  - rewrite touch_self. apply fold_touch_absent.
    unfold reconciled. exact Hd.
  - rewrite touch_other.
    + now apply IH.
    + intros Heq. apply Hd. rewrite <- Heq. now apply in_map.
Qed.

Lemma store_after_pass listed rows :
  Permutation listed rows -> NoDup (map id rows) ->
  fold_left (apply_update E) listed rows = map (reconciled E) rows.
Proof.
  intros Hp Hnd. rewrite fold_apply_update. apply map_ext_in. intros r Hr.
  apply fold_touch_present.
  - eapply Permutation_NoDup; [|exact Hnd].
    apply Permutation_map. now symmetry.
  - eapply Permutation_in; [|exact Hr]. now symmetry.
Qed.

(** *** The handler *)

Lemma list_donations_run w u :
  session_user w = Some u ->
  db_fails E SELECT_donations_ORDER_BY_created_at_DESC = false ->
  let listed := order_by_created_at_desc (donations (db w)) in
  exists w',
    list_donations E w = (Ok (json 200 (J_donations (map (reconciled E) listed))), w') /\
    donations (db w') = fold_left (apply_update E) listed (donations (db w)) /\
    admin_users (db w') = admin_users (db w) /\
    calls w' =
      calls w ++ Db SELECT_donations_ORDER_BY_created_at_DESC
              :: flat_map (reconciliation_calls E) listed.
Proof.
  intros Hu Hf listed.
  set (w1 := mkWorld (db w) (calls w ++ [Db SELECT_donations_ORDER_BY_created_at_DESC])
               (console w) (session_user w)).
  destruct (for_of_refresh_run listed w1) as (w2 & I0 & I2 & I3 & I4 & _).
  exists w2.
  unfold list_donations, isAuthenticated, bind at 1, get_session.
  rewrite Hu. unfold try_catch, bind at 1, dbAll_donations, bind at 1, record_call.
  rewrite Hf. cbn [bind get_db ret db]. fold listed. fold w1.
  unfold bind. rewrite I0. cbn [ret]. rewrite I2, I3, I4. subst w1. cbn [db calls].
  rewrite <- app_assoc. auto.
Qed.

End Reconciliation.

Lemma Sorted_map_newest_first (f : Donation -> Donation) l :
  (forall d, created_at (f d) = created_at d) ->
  Sorted newest_first l -> Sorted newest_first (map f l).
Proof.
  intros Hf. induction 1 as [|a l Hs IH Hh]; cbn [map]; constructor; [exact IH|].
  destruct Hh as [|b l Hab]; cbn [map]; constructor.
  unfold newest_first in *. now rewrite !Hf.
Qed.

Lemma Forall2_map_both {A B C} (P : B -> C -> Prop) (f : A -> B) (g : A -> C) l :
  (forall a, In a l -> P (f a) (g a)) -> Forall2 P (map f l) (map g l).
Proof.
  induction l as [|a l IH]; cbn [map]; intros H; constructor.
  - apply H. now left.
  - apply IH. intros b Hb. apply H. now right.
Qed.

Lemma reconciled_not_pending E d :
  payment_intent_status d <> "pending" -> reconciled E d = d.
Proof.
  intros H. unfold reconciled, reconciled_status.
  destruct (String.eqb_spec (payment_intent_status d) "pending"); [contradiction|].
  apply set_status_same.
Qed.

Lemma reconciled_status_no_fault E d :
  (forall q, db_fails E q = false) ->
  reconciled_status E d = reported_status E d.
Proof.
  intros Hf. unfold reconciled_status, reported_status.
  destruct (String.eqb (payment_intent_status d) "pending"); [|reflexivity].
  destruct (paymentIntents_retrieve E _); [|reflexivity]. now rewrite Hf.
Qed.

Lemma update_call_is_pending E s i l :
  In (Db (UPDATE_donations_WHERE_id s i)) (flat_map (reconciliation_calls E) l) ->
  exists d, In d l /\ id d = i /\ payment_intent_status d = "pending".
Proof.
  intros H. apply in_flat_map in H. destruct H as (d & Hd & Hc).
  exists d. split; [exact Hd|]. unfold reconciliation_calls in Hc.
  destruct (String.eqb_spec (payment_intent_status d) "pending") as [Hp|]; [|contradiction].
  destruct Hc as [Hc | Hc]; [discriminate|].
  destruct (paymentIntents_retrieve E _) as [p|]; [|contradiction].
  destruct (String.eqb (Stripe.status p) (payment_intent_status d)); [contradiction|].
  destruct Hc as [Hc | []]. inversion Hc. auto.
Qed.

Lemma NoDup_map_id_eq (l : list Donation) a b :
  NoDup (map id l) -> In a l -> In b l -> id a = id b -> a = b.
Proof.
  induction l as [|x l IH]; intros Hnd Ha Hb Heq; [contradiction|].
  cbn [map] in Hnd. inversion Hnd as [|? ? Hx Hl]; subst.
  destruct Ha as [-> | Ha], Hb as [-> | Hb]; auto.
  - elim Hx. rewrite Heq. now apply in_map.
  - elim Hx. rewrite <- Heq. now apply in_map.
Qed.

(** C2. ListAndReconcile postcondition: for an authenticated request on a
    table whose rowids are distinct and a store that does not fail, the
    answer is 200 with all the rows, newest first; in the answer and in the
    store each row keeps its fields and carries the status the processor
    reports for it when it was pending and its own otherwise; the pass
    makes one lookup per pending row, followed by an update exactly when
    the reported status differs; a row that was not pending is returned
    and stored as it was and no update is issued for its rowid. *)
Theorem list_donations_postcondition E w u :
  session_user w = Some u ->
  NoDup (map id (donations (db w))) ->
  (forall q, db_fails E q = false) ->
  exists listed rows w',
    list_donations E w = (Ok (json 200 (J_donations rows)), w') /\
    Permutation listed (donations (db w)) /\
    Sorted newest_first listed /\
    Sorted newest_first rows /\
    Forall2 (fun old new => same_but_status old new /\
                            payment_intent_status new = reported_status E old)
      listed rows /\
    Forall2 (fun old new => same_but_status old new /\
                            payment_intent_status new = reported_status E old)
      (donations (db w)) (donations (db w')) /\
    admin_users (db w') = admin_users (db w) /\
    calls w' = calls w ++ Db SELECT_donations_ORDER_BY_created_at_DESC
                       :: flat_map (reconciliation_calls E) listed /\
    (forall d, In d (donations (db w)) ->
       payment_intent_status d <> "pending" ->
       In d rows /\ In d (donations (db w')) /\
       forall s, ~ In (Db (UPDATE_donations_WHERE_id s (id d)))
                   (flat_map (reconciliation_calls E) listed)).
Proof.
  intros Hu Hnd Hf.
  destruct (list_donations_run E w u Hu (Hf _)) as (w' & H0 & H2 & H3 & H4).
  cbv zeta in *.
  pose proof (order_by_created_at_desc_perm (donations (db w))) as Hp.
  pose proof (order_by_created_at_desc_sorted (donations (db w))) as Hs.
  rewrite (store_after_pass E _ _ Hp Hnd) in H2.
  set (listed := order_by_created_at_desc (donations (db w))) in *.
  exists listed, (map (reconciled E) listed), w'.
  assert (Hrow : forall l, Forall2
            (fun old new => same_but_status old new /\
                            payment_intent_status new = reported_status E old)
            l (map (reconciled E) l)).
  { intros l. apply Forall2_map_right. intros d _. split.
    - apply same_but_status_set.
    - unfold reconciled. cbn. now apply reconciled_status_no_fault. }
  repeat split; try assumption.
  - now apply Sorted_map_newest_first.
  - apply Hrow.
  - rewrite H2. apply Hrow.
  - rewrite <- (reconciled_not_pending E d) at 1 by assumption.
    apply in_map. eapply Permutation_in; [symmetry; exact Hp | assumption].
  - rewrite H2. rewrite <- (reconciled_not_pending E d) at 1 by assumption.
    now apply in_map.
  - intros s Hc. apply update_call_is_pending in Hc.
    destruct Hc as (d' & Hd' & Hid & Hpend).
    assert (d' = d).
    { apply (NoDup_map_id_eq (donations (db w))); auto.
      eapply Permutation_in; [exact Hp | exact Hd']. }
    subst d'. contradiction.
Qed.

Lemma reconciled_failing_lookup E p err d :
  reconciled (with_failing_lookup E p err) d =
  if String.eqb (payment_intent_id d) p then d else reconciled E d.
Proof.
  unfold reconciled, reconciled_status. cbn.
  destruct (String.eqb (payment_intent_id d) p).
  - destruct (String.eqb (payment_intent_status d) "pending");
      apply set_status_same.
  - reflexivity.
Qed.

Lemma reconciled_status_reported E d intent :
  payment_intent_status d = "pending" ->
  paymentIntents_retrieve E (payment_intent_id d) = Ok intent ->
  db_fails E (UPDATE_donations_WHERE_id (Stripe.status intent) (id d)) = false ->
  reconciled_status E d = Stripe.status intent.
Proof.
  intros Hp Hr Hf. unfold reconciled_status.
  now rewrite Hp, String.eqb_refl, Hr, Hf.
Qed.

Lemma reconciliation_calls_pending E d intent :
  payment_intent_status d = "pending" ->
  paymentIntents_retrieve E (payment_intent_id d) = Ok intent ->
  In (StripeRetrieve (payment_intent_id d)) (reconciliation_calls E d) /\
  (Stripe.status intent <> "pending" ->
   In (Db (UPDATE_donations_WHERE_id (Stripe.status intent) (id d)))
      (reconciliation_calls E d)).
Proof.
  intros Hp Hr. unfold reconciliation_calls.
  rewrite Hp, String.eqb_refl, Hr. split; [now left|].
  intros Hs. right.
  destruct (String.eqb_spec (Stripe.status intent) "pending"); [contradiction|].
  now left.
Qed.

(** C3. ListAndReconcile partial-failure tolerance: let the lookup of the
    intent [p] fail. The authenticated request still answers 200 with one
    row per stored row, in the same order; the rows of intent [p] are
    returned and stored as they were; every other row is returned and
    stored exactly as in the pass where that lookup does not fail. And
    every other pending row is still reconciled in the pass with the
    failure: its intent is looked up; when the processor reports a status
    other than [pending], the update of that row is sent to the store; and
    when that update goes through, the row is returned and stored with the
    processor's status, its other fields kept. *)
Theorem list_donations_partial_failure E w u p err :
  session_user w = Some u ->
  NoDup (map id (donations (db w))) ->
  db_fails E SELECT_donations_ORDER_BY_created_at_DESC = false ->
  exists listed rows w1 rows' w1',
    list_donations E w = (Ok (json 200 (J_donations rows)), w1) /\
    list_donations (with_failing_lookup E p err) w =
      (Ok (json 200 (J_donations rows')), w1') /\
    Permutation listed (donations (db w)) /\
    map id rows' = map id listed /\
    map id (donations (db w1')) = map id (donations (db w)) /\
    Forall2 (fun old new => payment_intent_id old = p -> new = old) listed rows' /\
    Forall2 (fun old new => payment_intent_id old = p -> new = old)
      (donations (db w)) (donations (db w1')) /\
    Forall2 (fun a b => payment_intent_id a <> p -> b = a) rows rows' /\
    Forall2 (fun a b => payment_intent_id a <> p -> b = a)
      (donations (db w1)) (donations (db w1')) /\
    Forall2
      (fun old new =>
         payment_intent_id old <> p ->
         payment_intent_status old = "pending" ->
         forall intent,
           paymentIntents_retrieve E (payment_intent_id old) = Ok intent ->
           db_fails E (UPDATE_donations_WHERE_id (Stripe.status intent) (id old))
             = false ->
           same_but_status old new /\
           payment_intent_status new = Stripe.status intent)
      listed rows' /\
    Forall2
      (fun old new =>
         payment_intent_id old <> p ->
         payment_intent_status old = "pending" ->
         forall intent,
           paymentIntents_retrieve E (payment_intent_id old) = Ok intent ->
           db_fails E (UPDATE_donations_WHERE_id (Stripe.status intent) (id old))
             = false ->
           same_but_status old new /\
           payment_intent_status new = Stripe.status intent)
      (donations (db w)) (donations (db w1')) /\
    (forall d intent,
       In d (donations (db w)) ->
       payment_intent_id d <> p ->
       payment_intent_status d = "pending" ->
       paymentIntents_retrieve E (payment_intent_id d) = Ok intent ->
       In (StripeRetrieve (payment_intent_id d)) (calls_made w w1') /\
       (Stripe.status intent <> "pending" ->
        In (Db (UPDATE_donations_WHERE_id (Stripe.status intent) (id d)))
           (calls_made w w1'))).
Proof.
  intros Hu Hnd Hf.
  destruct (list_donations_run E w u Hu Hf) as (w1 & H0 & H2 & _).
  destruct (list_donations_run (with_failing_lookup E p err) w u Hu Hf)
    as (w1' & H0' & H2' & _ & H4').
  cbv zeta in *.
  pose proof (order_by_created_at_desc_perm (donations (db w))) as Hp.
  rewrite (store_after_pass _ _ _ Hp Hnd) in H2.
  rewrite (store_after_pass _ _ _ Hp Hnd) in H2'.
  set (listed := order_by_created_at_desc (donations (db w))) in *.
  exists listed, (map (reconciled E) listed), w1,
    (map (reconciled (with_failing_lookup E p err)) listed), w1'.
  assert (Hid : forall E' l, map id (map (reconciled E') l) = map id l).
  { intros E' l. rewrite map_map. now apply map_ext. }
  assert (Hsame : forall l,
            Forall2 (fun old new => payment_intent_id old = p -> new = old)
              l (map (reconciled (with_failing_lookup E p err)) l)).
  { intros l. apply Forall2_map_right. intros d _ Hd.
    rewrite reconciled_failing_lookup.
    destruct (String.eqb_spec (payment_intent_id d) p); [reflexivity | contradiction]. }
  assert (Hother : forall l,
            Forall2 (fun a b => payment_intent_id a <> p -> b = a)
              (map (reconciled E) l)
              (map (reconciled (with_failing_lookup E p err)) l)).
  { intros l. apply Forall2_map_both. intros d _ Hd.
    rewrite reconciled_failing_lookup. cbn in Hd.
    destruct (String.eqb_spec (payment_intent_id d) p); [contradiction | reflexivity]. }
  assert (Hrec : forall l,
            Forall2
              (fun old new =>
                 payment_intent_id old <> p ->
                 payment_intent_status old = "pending" ->
                 forall intent,
                   paymentIntents_retrieve E (payment_intent_id old) = Ok intent ->
                   db_fails E (UPDATE_donations_WHERE_id (Stripe.status intent)
                                 (id old)) = false ->
                   same_but_status old new /\
                   payment_intent_status new = Stripe.status intent)
              l (map (reconciled (with_failing_lookup E p err)) l)).
  { intros l. apply Forall2_map_right. intros d _ Hd Hpend intent Hr Hup.
    rewrite reconciled_failing_lookup.
    destruct (String.eqb_spec (payment_intent_id d) p); [contradiction|].
    split; [apply same_but_status_set|].
    unfold reconciled. cbn [set_status payment_intent_status].
    now apply reconciled_status_reported. }
  rewrite H2, H2'. repeat split; auto.
  - unfold calls_made. rewrite H4', skipn_app, skipn_all, Nat.sub_diag.
    cbn [skipn app]. right. apply in_flat_map. exists d. split.
    + eapply Permutation_in; [symmetry; exact Hp | assumption].
    + apply (reconciliation_calls_pending (with_failing_lookup E p err) d intent);
        [assumption|]. cbn [paymentIntents_retrieve with_failing_lookup].
      destruct (String.eqb_spec (payment_intent_id d) p); [contradiction | assumption].
  - intros Hs. unfold calls_made. rewrite H4', skipn_app, skipn_all, Nat.sub_diag.
    cbn [skipn app]. right. apply in_flat_map. exists d. split.
    + eapply Permutation_in; [symmetry; exact Hp | assumption].
    + apply (reconciliation_calls_pending (with_failing_lookup E p err) d intent);
        [assumption | | assumption].
      cbn [paymentIntents_retrieve with_failing_lookup].
      destruct (String.eqb_spec (payment_intent_id d) p); [contradiction | assumption].
Qed.

(** ** Admin identity *)

Section Admin.

Variable E : Env.

Lemma register_run body w :
  Js.truthy_text (Body.username body) = true ->
  Js.truthy (Body.password body) = true ->
  db_fails E SELECT_COUNT_admin_users = false ->
  register E body w =
  let w1 := mkWorld (db w) (calls w ++ [Db SELECT_COUNT_admin_users])
              (console w) (session_user w) in
  if negb (Z.of_nat (List.length (admin_users (db w))) =? 0)
     && negb (is_some (session_user w))
  then (Ok (json 401 (J_error "Unauthorized. Please log in as admin to add new users.")),
        w1)
  else
    try_catch
      (hash <- await (bcrypt_hash E (Body.password body)) ;;
       dbRun E (INSERT_INTO_admin_users (text (Body.username body)) hash) ;;
       ret (json 200 (J_message "Admin user registered successfully.")))
      (fun err => console_print "Error in /admin-api/register:" ;; next err)
      w1.
Proof.
  intros Hu Hp Hf. unfold register, try_catch at 1.
  rewrite Hu, Hp. cbn [negb orb].
  unfold bind at 1, dbGet_count, bind at 1, record_call. rewrite Hf.
  cbn [bind get_db ret db]. unfold bind at 1, get_session. cbn [session_user].
  destruct (negb _ && negb _); reflexivity.
Qed.

Lemma insert_admin_run name hash w :
  db_fails E (INSERT_INTO_admin_users name hash) = false ->
  username_taken name (admin_users (db w)) = false ->
  dbRun E (INSERT_INTO_admin_users name hash) w =
  (Ok tt,
   mkWorld
     (mkDatabase (donations (db w))
        (admin_users (db w) ++
           [mkAdminUser (next_rowid (map admin_id (admin_users (db w)))) name hash]))
     (calls w ++ [Db (INSERT_INTO_admin_users name hash)])
     (console w) (session_user w)).
Proof.
  intros Hf Ht. unfold dbRun, bind, record_call. rewrite Hf. cbn.
  rewrite Ht. reflexivity.
Qed.

Lemma register_insert_run body w hash :
  bcrypt_hash E (Body.password body) = Ok hash ->
  db_fails E (INSERT_INTO_admin_users (text (Body.username body)) hash) = false ->
  username_taken (text (Body.username body)) (admin_users (db w)) = false ->
  try_catch
    (hash <- await (bcrypt_hash E (Body.password body)) ;;
     dbRun E (INSERT_INTO_admin_users (text (Body.username body)) hash) ;;
     ret (json 200 (J_message "Admin user registered successfully.")))
    (fun err => console_print "Error in /admin-api/register:" ;; next err)
    w =
  (Ok (json 200 (J_message "Admin user registered successfully.")),
   mkWorld
     (mkDatabase (donations (db w))
        (admin_users (db w) ++
           [mkAdminUser (next_rowid (map admin_id (admin_users (db w))))
              (text (Body.username body)) hash]))
     (calls w ++ [Db (INSERT_INTO_admin_users (text (Body.username body)) hash)])
     (console w) (session_user w)).
Proof.
  intros Hh Hf Ht. unfold try_catch, bind at 1, await. rewrite Hh.
  unfold bind at 1. rewrite insert_admin_run by assumption. reflexivity.
Qed.


Lemma login_run body w :
  Js.truthy_text (Body.username body) = true ->
  Js.truthy (Body.password body) = true ->
  db_fails E (SELECT_admin_users_WHERE_username (text (Body.username body))) = false ->
  login E body w =
  let w1 := mkWorld (db w)
              (calls w ++ [Db (SELECT_admin_users_WHERE_username
                                 (text (Body.username body)))])
              (console w) (session_user w) in
  match find (fun u => String.eqb (username u) (text (Body.username body)))
          (admin_users (db w)) with
  | None => (Ok (json 401 (J_error "Invalid credentials.")), w1)
  | Some user =>
      match bcrypt_compare E (Body.password body) (password user) with
      | Ok true =>
          (Ok (json 200 (J_message "Login successful.")),
           mkWorld (db w) (calls w1) (console w)
             (Some (mkSessionUser (admin_id user) (username user))))
      | Ok false => (Ok (json 401 (J_error "Invalid credentials.")), w1)
      | Throw err =>
          (Ok internal_error,
           mkWorld (db w) (calls w1)
             ((console w ++ ["Error in /admin-api/login:"]) ++ ["Unhandled error:"])
             (session_user w))
      end
  end.
Proof.
  intros Hu Hp Hf. unfold login, try_catch.
  rewrite Hu, Hp. cbn [negb orb].
  unfold bind at 1, dbGet_user, bind at 1, record_call. rewrite Hf.
  cbn [bind get_db ret db].
  destruct (find _ _) as [user|]; [|reflexivity].
  unfold bind at 1, await.
  destruct (bcrypt_compare E _ _) as [[|]|err]; reflexivity.
Qed.


End Admin.


(** ** Store failures *)

Section StoreFailures.

Variable E : Env.

Ltac run :=
  cbv [create_payment_intent webhook route check_setup register login add_user
       list_donations isAuthenticated try_catch bind dbRun dbGet_count
       dbGet_user dbAll_donations stripe_create stripe_retrieve record_call
       await get_db put_db get_session set_session ret throw console_print
       next json run_sql];
  cbn [fst snd db calls console session_user].

Ltac no_call :=
  cbn [fst snd db calls console session_user];
  exists []; split; [now rewrite app_nil_r | intros ? []].

Ltac made_calls :=
  cbn [fst snd db calls console session_user];
  eexists; split;
  [ rewrite <- ?app_assoc; reflexivity
  | let q := fresh "q" in
    let Hin := fresh "Hin" in
    let Hq := fresh "Hq" in
    intros q Hin Hq; cbn [In app] in Hin;
    repeat (destruct Hin as [Hin | Hin]; [try discriminate|]);
    try contradiction;
    try (inversion Hin; subst; try congruence; cbn; reflexivity) ].

Lemma create_payment_intent_accounted body w :
  accounted E w (create_payment_intent E body w).
Proof.
  unfold accounted. run.
  destruct (negb _ || negb _); [no_call|].
  destruct (Js.isNaN _ || Js.leb _ _); [no_call|].
  destruct (paymentIntents_create E _ _ _) as [p|err]; [|made_calls].
  destruct (db_fails E _) eqn:Hf; made_calls.
Qed.

Lemma webhook_accounted req w : accounted E w (route (webhook E req) w).
Proof.
  unfold accounted, route. run.
  destruct (received_event E req) as [event|err]; [|no_call].
  destruct (Json.get (Some event) "type") as [type|err]; [|no_call].
  destruct (Json.is_string type "payment_intent.succeeded"); [|no_call].
  destruct (Json.get (Some event) "data") as [data|err]; [|no_call].
  destruct (Json.get data "object") as [object|err]; [|no_call].
  destruct (Json.get object "id") as [intent|err]; [|no_call].
  destruct (db_fails E _) eqn:Hf; [made_calls|].
  destruct (intent_text _ _); made_calls.
Qed.

Lemma check_setup_accounted w : accounted E w (check_setup E w).
Proof.
  unfold accounted. run.
  destruct (db_fails E _) eqn:Hf; made_calls.
Qed.

Lemma register_accounted body w : accounted E w (register E body w).
Proof.
  unfold accounted. run.
  destruct (negb _ || negb _); [no_call|].
  destruct (db_fails E SELECT_COUNT_admin_users) eqn:Hf; [made_calls|].
  destruct (negb _ && negb _); [made_calls|].
  destruct (bcrypt_hash E _) as [hash|err]; [|made_calls].
  destruct (db_fails E (INSERT_INTO_admin_users _ _)) eqn:Hi; [made_calls|].
  destruct (username_taken _ _); made_calls.
Qed.

Lemma login_accounted body w : accounted E w (login E body w).
Proof.
  unfold accounted. run.
  destruct (negb _ || negb _); [no_call|].
  destruct (db_fails E _) eqn:Hf; [made_calls|].
  destruct (find _ _) as [user|]; [|made_calls].
  destruct (bcrypt_compare E _ _) as [[|]|err]; made_calls.
Qed.

Lemma add_user_accounted body w : accounted E w (add_user E body w).
Proof.
  unfold accounted. run.
  destruct (session_user w) as [u|]; [|no_call].
  destruct (negb _ || negb _); [no_call|].
  destruct (bcrypt_hash E _) as [hash|err]; [|no_call].
  destruct (db_fails E (INSERT_INTO_admin_users _ _)) eqn:Hi; [made_calls|].
  destruct (username_taken _ _); made_calls.
Qed.

Lemma reconciliation_calls_updates q l :
  In (Db q) (flat_map (reconciliation_calls E) l) ->
  exists s i, q = UPDATE_donations_WHERE_id s i.
Proof.
  intros H. apply in_flat_map in H. destruct H as (d & _ & Hc).
  unfold reconciliation_calls in Hc.
  destruct (String.eqb (payment_intent_status d) "pending"); [|contradiction].
  destruct Hc as [Hc | Hc]; [discriminate|].
  destruct (paymentIntents_retrieve E _) as [p|]; [|contradiction].
  destruct (String.eqb (Stripe.status p) (payment_intent_status d)); [contradiction|].
  destruct Hc as [Hc | []]. inversion Hc. eauto.
Qed.

Lemma list_donations_accounted w : accounted E w (list_donations E w).
Proof.
  destruct (session_user w) as [u|] eqn:Hu.
  - destruct (db_fails E SELECT_donations_ORDER_BY_created_at_DESC) eqn:Hf.
    + unfold accounted. run. rewrite Hu, Hf. made_calls.
    + destruct (list_donations_run E w u Hu Hf) as (w' & H0 & _ & _ & H4).
      unfold accounted. rewrite H0. cbn [fst snd]. eexists. split; [exact H4|].
      intros q [Hq | Hq] Hfail.
      * inversion Hq; subst. congruence.
      * apply reconciliation_calls_updates in Hq. destruct Hq as (s & i & ->).
        cbn. eauto.
  - unfold accounted. run. rewrite Hu. no_call.
Qed.

Lemma handle_accounted r w : accounted E w (handle E r w).
Proof.
  destruct r; cbn [handle].
  - apply create_payment_intent_accounted.
  - apply webhook_accounted.
  - apply check_setup_accounted.
  - apply register_accounted.
  - apply login_accounted.
  - apply list_donations_accounted.
  - apply add_user_accounted.
Qed.

(** C8, as amended. PersistenceError surfacing: when a statement sent to
    the store while handling a request fails, the caller receives the 500
    of the catch-all middleware, except for the two status updates: the
    update started by the webhook fails behind the acknowledgement
    [{received: true}], and an update of the reconciliation loop fails
    behind the 200 answer carrying the list. *)
Theorem store_failure_surfacing r w q :
  In (Db q) (calls_made w (snd (handle E r w))) ->
  db_fails E q = true ->
  failure_outcome q (fst (handle E r w)).
Proof.
  destruct (handle_accounted r w) as (made & Hc & Hq).
  unfold calls_made. rewrite Hc, skipn_app, skipn_all, Nat.sub_diag.
  cbn [skipn app]. apply Hq.
Qed.

End StoreFailures.

(** C8, as stated, fails. With a database driver that reports an error on
    the status updates, the webhook acknowledges a succeeded event with
    200 [{received: true}] although its UPDATE failed, and the donations
    list is answered 200 although the UPDATE of row 1 failed: neither
    caller receives the 500. *)
Lemma store_failure_without_500 :
  In (Db (UPDATE_donations_WHERE_payment_intent_id "succeeded"
            (Some (Json.JString "pi_1"))))
     (calls_made Demo.world
        (snd (handle Demo.env_updates_fail
                (POST_webhook (Body.mkWebhook "succeeded pi_1" None))
                Demo.world))) /\
  db_fails Demo.env_updates_fail
    (UPDATE_donations_WHERE_payment_intent_id "succeeded"
       (Some (Json.JString "pi_1"))) = true /\
  fst (handle Demo.env_updates_fail
         (POST_webhook (Body.mkWebhook "succeeded pi_1" None)) Demo.world)
    = Ok (json 200 J_received) /\
  fst (handle Demo.env_updates_fail
         (POST_webhook (Body.mkWebhook "succeeded pi_1" None)) Demo.world)
    <> Ok internal_error /\
  In (Db (UPDATE_donations_WHERE_id "succeeded" 1))
     (calls_made Demo.admin_world
        (snd (handle Demo.env_updates_fail GET_donations Demo.admin_world))) /\
  db_fails Demo.env_updates_fail (UPDATE_donations_WHERE_id "succeeded" 1) = true /\
  fst (handle Demo.env_updates_fail GET_donations Demo.admin_world)
    = Ok (json 200 (J_donations (order_by_created_at_desc Demo.three_rows))) /\
  fst (handle Demo.env_updates_fail GET_donations Demo.admin_world)
    <> Ok internal_error.
Proof.
  repeat split; try (vm_compute; tauto); try (vm_compute; discriminate).
Qed.

(** ** Amount conversion *)

(** C7, as stated, fails. The amount is computed on doubles. The double
    nearest to the decimal 1.005 lies below it, so the handler computes and
    persists 100 cents where 1.005 times 100 rounded half-up is 101. The
    double 1.115 times 100 is rounded by the multiplication to 111.5, so
    the handler computes 112 cents where the exact product of that double
    and 100, rounded half-up, is 111. *)
Lemma amount_conversion_differs_from_exact_half_up :
  amountCents Demo.env (Js.Num Demo.d1_115) = Js.of_Z 112 /\
  round_half_up (Js.to_Q Demo.d1_115 * 100) = 111 /\
  nearest_double (1005 # 1000) Demo.d1_005 /\
  amountCents Demo.env (Js.Num Demo.d1_005) = Js.of_Z 100 /\
  (Js.to_Q (amountCents Demo.env (Js.Num Demo.d1_005)) == 100)%Q /\
  round_half_up ((1005 # 1000) * 100) = 101 /\
  map donation_amount
    (donations (db (snd (create_payment_intent Demo.env
                           (Demo.form (Js.Num Demo.d1_005) (Some "donor@example.org"))
                           Demo.empty_world))))
  = [Js.of_Z 100].
Proof.
  repeat split; try (vm_compute; reflexivity); vm_compute; discriminate.
Qed.

(** C7, as amended. Amount conversion: for every creation request that
    passes validation and is carried out (the processor creates the intent
    and the store accepts the insert), whatever the type of its amount,
    the amount sent to the processor and the amount persisted are both
    [Math.round(Number(donationAmount) * 100)], where the product is the
    binary64 product. When that product is finite the amount is the
    product rounded half-up to an integer; when it is not, the amount is
    +Infinity. The doubles nearest to 12.345 and to 10 yield 1235 and
    1000, and the double nearest to 1e308 yields +Infinity. *)
Theorem amount_conversion E :
  (forall body w paymentIntent,
     let product := Js.mul (ToNumber E (Body.donationAmount body)) (Js.of_Z 100) in
     valid_creation E body ->
     paymentIntents_create E (Js.Math_round product) "usd" (Body.email body)
       = Ok paymentIntent ->
     (forall q, db_fails E q = false) ->
     exists row,
       donations (db (snd (create_payment_intent E body w)))
         = donations (db w) ++ [row] /\
       donation_amount row = Js.Math_round product /\
       In (StripeCreate (Js.Math_round product) "usd" (Body.email body))
          (calls (snd (create_payment_intent E body w))) /\
       (Js.isFinite product = true ->
        (Js.to_Q (Js.Math_round product)
         == inject_Z (round_half_up (Js.to_Q product)))%Q) /\
       (Js.isFinite product = false ->
        Js.Math_round product = S754_infinity false)) /\
  nearest_double (12345 # 1000) Demo.d12_345 /\
  amountCents E (Js.Num Demo.d12_345) = Js.of_Z 1235 /\
  nearest_double 10 Demo.d10 /\
  amountCents E (Js.Num Demo.d10) = Js.of_Z 1000 /\
  nearest_double (inject_Z (10 ^ 308)) Demo.d1e308 /\
  amountCents E (Js.Num Demo.d1e308) = S754_infinity false.
Proof.
  split.
  - intros body w paymentIntent product Hv Hs Hf.
    assert (Hvalid := Hv). destruct Hvalid as (_ & _ & Hnan & Hpos).
    rewrite (create_payment_intent_valid_run E body w Hv). cbv zeta.
    unfold amountCents in *. fold product in Hnan, Hpos |- *.
    rewrite Hs, Hf. cbn [snd db donations calls].
    eexists. split; [reflexivity|]. cbn [donation_amount].
    split; [reflexivity|]. split; [|split].
    + apply in_or_app. left. apply in_or_app. right. now left.
    + intros Hfin. apply Math_round_half_up; [exact Hfin|].
      intros s m e. apply mul_mantissa.
    + intros Hfin. destruct product as [s|[|]| |s m e]; try discriminate.
      reflexivity.
  - repeat split; try (vm_compute; reflexivity); vm_compute; discriminate.
Qed.

(** ** The theorems at work on the demo deployment *)

Lemma create_payment_intent_rejects_invalid_witness :
  invalid_creation Demo.env (Demo.form (Js.Num Demo.minus_five) (Some "donor@example.org")) /\
  exists msg,
    create_payment_intent Demo.env
      (Demo.form (Js.Num Demo.minus_five) (Some "donor@example.org")) Demo.world
    = (Ok (json 400 (J_error msg)), Demo.world).
Proof.
  assert (H : invalid_creation Demo.env
                (Demo.form (Js.Num Demo.minus_five) (Some "donor@example.org"))).
  { right. right. left. vm_compute. reflexivity. }
  split; [exact H|].
  exact (create_payment_intent_rejects_invalid Demo.env _ Demo.world H).
Defined.

Lemma create_payment_intent_upstream_failure_witness :
  valid_creation Demo.env_stripe_down Demo.ten_dollars /\
  fst (create_payment_intent Demo.env_stripe_down Demo.ten_dollars Demo.world)
    = Ok internal_error /\
  db (snd (create_payment_intent Demo.env_stripe_down Demo.ten_dollars Demo.world))
    = db Demo.world.
Proof.
  assert (H : valid_creation Demo.env_stripe_down Demo.ten_dollars).
  { repeat split; vm_compute; reflexivity. }
  split; [exact H|].
  destruct (create_payment_intent_upstream_failure Demo.env_stripe_down
              Demo.ten_dollars Demo.world Demo.lookup_error H eq_refl)
    as (Hr & Hd & _).
  split; [exact Hr | exact Hd].
Defined.

Lemma create_payment_intent_success_witness :
  valid_creation Demo.env Demo.ten_dollars /\
  exists row secret,
    fst (create_payment_intent Demo.env Demo.ten_dollars Demo.world)
      = Ok (json 200 (J_clientSecret secret)) /\
    donations (db (snd (create_payment_intent Demo.env Demo.ten_dollars Demo.world)))
      = Demo.three_rows ++ [row] /\
    payment_intent_status row = "pending".
Proof.
  assert (H : valid_creation Demo.env Demo.ten_dollars).
  { repeat split; vm_compute; reflexivity. }
  split; [exact H|].
  destruct (create_payment_intent_success Demo.env Demo.ten_dollars Demo.world
              (Demo.intent (Js.of_Z 1000)) H eq_refl)
    as (row & secret & Hr & _ & _ & Hd & _ & Hp & _).
  - vm_compute. discriminate.
  - vm_compute. discriminate.
  - intros q. reflexivity.
  - exists row, secret. split; [exact Hr|]. split; [exact Hd | exact Hp].
Defined.

Lemma amount_conversion_witness :
  valid_creation Demo.env Demo.ten_dollars /\
  exists row,
    donations (db (snd (create_payment_intent Demo.env Demo.ten_dollars Demo.world)))
      = Demo.three_rows ++ [row] /\
    donation_amount row = Js.of_Z 1000 /\
    (Js.to_Q (donation_amount row)
     == inject_Z (round_half_up (Js.to_Q (Js.mul Demo.d10 (Js.of_Z 100)))))%Q.
Proof.
  assert (H : valid_creation Demo.env Demo.ten_dollars).
  { repeat split; vm_compute; reflexivity. }
  split; [exact H|].
  destruct (proj1 (amount_conversion Demo.env) Demo.ten_dollars Demo.world
              (Demo.intent (Js.of_Z 1000)) H eq_refl (fun q => eq_refl))
    as (row & Hd & Ha & _ & Hq & _).
  exists row. split; [exact Hd|]. split; [exact Ha|].
  rewrite Ha. apply Hq. reflexivity.
Defined.


Lemma demo_rowids_distinct : NoDup (map id (donations (db Demo.admin_world))).
Proof.
  vm_compute. repeat constructor; cbn; intuition discriminate.
Defined.

Lemma list_donations_postcondition_witness :
  session_user Demo.admin_world = Some (mkSessionUser 1 "root") /\
  NoDup (map id (donations (db Demo.admin_world))) /\
  exists rows w',
    list_donations Demo.env Demo.admin_world
      = (Ok (json 200 (J_donations rows)), w') /\
    Sorted newest_first rows.
Proof.
  split; [reflexivity|]. split; [exact demo_rowids_distinct|].
  destruct (list_donations_postcondition Demo.env Demo.admin_world
              (mkSessionUser 1 "root") eq_refl demo_rowids_distinct
              (fun q => eq_refl))
    as (listed & rows & w' & H0 & _ & _ & Hs & _).
  exists rows, w'. split; [exact H0 | exact Hs].
Defined.

Lemma list_donations_partial_failure_witness :
  session_user Demo.admin_world = Some (mkSessionUser 1 "root") /\
  NoDup (map id (donations (db Demo.admin_world))) /\
  db_fails Demo.env SELECT_donations_ORDER_BY_created_at_DESC = false /\
  exists rows' w1',
    list_donations (with_failing_lookup Demo.env "pi_2" Demo.lookup_error)
      Demo.admin_world
      = (Ok (json 200 (J_donations rows')), w1') /\
    map id (donations (db w1')) = map id Demo.three_rows /\
    In (StripeRetrieve "pi_1") (calls_made Demo.admin_world w1') /\
    In (Db (UPDATE_donations_WHERE_id "succeeded" 1))
       (calls_made Demo.admin_world w1').
Proof.
  split; [reflexivity|]. split; [exact demo_rowids_distinct|].
  split; [reflexivity|].
  destruct (list_donations_partial_failure Demo.env Demo.admin_world
              (mkSessionUser 1 "root") "pi_2" Demo.lookup_error eq_refl
              demo_rowids_distinct eq_refl)
    as (listed & rows & w1 & rows' & w1' & _ & H0 & _ & _ & Hid & _ & _ & _ & _
        & _ & _ & Hcalls).
  exists rows', w1'. split; [exact H0|]. split; [exact Hid|].
  destruct (Hcalls (Demo.row 1 "pi_1" "pending" 100)
              (Stripe.mkPaymentIntent "pi_1" "s1" "succeeded"))
    as (Hlookup & Hupdate).
  - left. reflexivity.
  - discriminate.
  - reflexivity.
  - reflexivity.
  - split; [exact Hlookup|]. apply Hupdate. discriminate.
Defined.

Lemma store_failure_surfacing_witness :
  In (Db Demo.insert_ten_dollars)
     (calls_made Demo.world
        (snd (handle Demo.env_db_down
                (POST_create_payment_intent Demo.ten_dollars) Demo.world))) /\
  db_fails Demo.env_db_down Demo.insert_ten_dollars = true /\
  fst (handle Demo.env_db_down (POST_create_payment_intent Demo.ten_dollars)
         Demo.world)
    = Ok internal_error.
Proof.
  assert (H : In (Db Demo.insert_ten_dollars)
                (calls_made Demo.world
                   (snd (handle Demo.env_db_down
                           (POST_create_payment_intent Demo.ten_dollars)
                           Demo.world)))).
  { vm_compute. right. left. reflexivity. }
  split; [exact H|]. split; [reflexivity|].
  exact (store_failure_surfacing Demo.env_db_down
           (POST_create_payment_intent Demo.ten_dollars) Demo.world
           Demo.insert_ten_dollars H eq_refl).
Defined.



(** * Further properties of the handlers *)

(** ** Rejections *)

(** X1. With a webhook secret configured, a request whose signature
    [constructEvent] refuses is answered 400 with the error text, whatever
    [JSON.parse] would make of the body; the database is left as it was and
    no statement is sent to the store. *)
Theorem webhook_bad_signature_changes_nothing E req w secret err :
  STRIPE_WEBHOOK_SECRET E = Some secret ->
  secret <> "" ->
  constructEvent E (Body.raw req) (Body.stripe_signature req) secret = Throw err ->
  fst (webhook E req w)
    = Ok (json 400 (Text (String.append "Webhook Error: " (message err)))) /\
  db (snd (webhook E req w)) = db w /\
  calls (snd (webhook E req w)) = calls w /\
  session_user (snd (webhook E req w)) = session_user w.
Proof.
  intros Hs Hne Hc.
  assert (Hr : received_event E req = Throw err).
  { unfold received_event. rewrite Hs. cbn [Js.truthy_text].
    destruct (String.eqb_spec secret ""); [contradiction|]. exact Hc. }
  unfold webhook. rewrite Hr. cbn. auto.
Qed.

(** X2. When Stripe has created the intent and the INSERT then fails, the
    caller gets the 500, no row exists for the intent, and the handler
    makes no further call: the authorization stays at Stripe without a
    local record. *)
Theorem create_payment_intent_orphaned_authorization E body w paymentIntent :
  valid_creation E body ->
  paymentIntents_create E (amountCents E (Body.donationAmount body)) "usd"
    (Body.email body) = Ok paymentIntent ->
  db_fails E
    (INSERT_INTO_donations (amountCents E (Body.donationAmount body))
       (Body.email body)
       (Js.or_null (Body.firstName body)) (Js.or_null (Body.lastName body))
       (Js.or_null (Body.cardName body)) (Js.or_null (Body.country body))
       (Js.or_null (Body.postalCode body))
       (Stripe.id paymentIntent) "pending") = true ->
  fst (create_payment_intent E body w) = Ok internal_error /\
  db (snd (create_payment_intent E body w)) = db w /\
  calls (snd (create_payment_intent E body w)) =
    calls w ++
    [StripeCreate (amountCents E (Body.donationAmount body)) "usd" (Body.email body);
     Db (INSERT_INTO_donations (amountCents E (Body.donationAmount body))
           (Body.email body)
           (Js.or_null (Body.firstName body)) (Js.or_null (Body.lastName body))
           (Js.or_null (Body.cardName body)) (Js.or_null (Body.country body))
           (Js.or_null (Body.postalCode body))
           (Stripe.id paymentIntent) "pending")].
Proof.
  intros Hv Hs Hf. rewrite (create_payment_intent_valid_run E body w Hv).
  cbv zeta. rewrite Hs, Hf. cbn [fst snd db calls].
  rewrite <- app_assoc. auto.
Qed.


(** ** What the handlers do to the tables *)

(** The three ways the donations list can go. *)
Lemma list_donations_cases E w :
  (session_user w = None /\
   list_donations E w = (Ok (json 401 (J_error "Unauthorized")), w)) \/
  (db_fails E SELECT_donations_ORDER_BY_created_at_DESC = true /\
   list_donations E w =
     (Ok internal_error,
      mkWorld (db w) (calls w ++ [Db SELECT_donations_ORDER_BY_created_at_DESC])
        ((console w ++ ["Error in /admin-api/donations:"]) ++ ["Unhandled error:"])
        (session_user w))) \/
  (exists w',
     list_donations E w =
       (Ok (json 200 (J_donations
                        (map (reconciled E)
                           (order_by_created_at_desc (donations (db w)))))), w') /\
     donations (db w') =
       fold_left (apply_update E) (order_by_created_at_desc (donations (db w)))
         (donations (db w)) /\
     admin_users (db w') = admin_users (db w) /\
     calls w' =
       calls w ++ Db SELECT_donations_ORDER_BY_created_at_DESC
               :: flat_map (reconciliation_calls E)
                    (order_by_created_at_desc (donations (db w))) /\
     session_user w' = session_user w).
Proof.
  destruct (session_user w) as [u|] eqn:Hu.
  - destruct (db_fails E SELECT_donations_ORDER_BY_created_at_DESC) eqn:Hf.
    + right. left. split; [reflexivity|].
      unfold list_donations, isAuthenticated, bind at 1, get_session.
      rewrite Hu. unfold try_catch, bind at 1, dbAll_donations, bind at 1, record_call.
      rewrite Hf. cbn. now rewrite Hu.
    + right. right.
      set (listed := order_by_created_at_desc (donations (db w))).
      set (w1 := mkWorld (db w)
                   (calls w ++ [Db SELECT_donations_ORDER_BY_created_at_DESC])
                   (console w) (session_user w)).
      destruct (for_of_refresh_run E listed w1) as (w2 & I0 & I2 & I3 & I4 & I5).
      exists w2.
      unfold list_donations, isAuthenticated, bind at 1, get_session.
      rewrite Hu. unfold try_catch, bind at 1, dbAll_donations, bind at 1, record_call.
      rewrite Hf. cbn [bind get_db ret db]. fold listed. rewrite <- Hu. fold w1.
      unfold bind. rewrite I0. cbn [ret]. rewrite I2, I3, I4, I5. subst w1.
      cbn [db calls session_user]. rewrite <- app_assoc. rewrite Hu. auto.
  - left. split; [reflexivity|].
    unfold list_donations, isAuthenticated, bind, get_session. now rewrite Hu.
Qed.

Lemma same_but_status_trans a b c :
  same_but_status a b -> same_but_status b c -> same_but_status a c.
Proof.
  unfold same_but_status. intros Hab Hbc.
  decompose [and] Hab. decompose [and] Hbc. repeat split; congruence.
Qed.

Lemma same_but_status_touch E a b d :
  same_but_status a b -> same_but_status a (touch E b d).
Proof.
  intros H. unfold touch. destruct (store_update E d); [|exact H].
  destruct (id b =? id d); [|exact H].
  eapply same_but_status_trans; [exact H | apply same_but_status_set].
Qed.

Lemma same_but_status_fold_touch E l : forall a b,
  same_but_status a b -> same_but_status a (fold_left (touch E) l b).
Proof.
  induction l as [|d l IH]; intros a b H; cbn [fold_left]; [exact H|].
  apply IH. now apply same_but_status_touch.
Qed.

Lemma Forall2_same_refl l : Forall2 same_but_status l l.
Proof. induction l; constructor; auto using same_but_status_refl. Qed.

Lemma or_null_not_empty t : Js.or_null t <> Some "".
Proof.
  unfold Js.or_null. destruct t as [s|]; cbn; [|discriminate].
  destruct (String.eqb_spec s ""); cbn; [discriminate|]. congruence.
Qed.

Ltac run :=
  cbv [create_payment_intent webhook route check_setup register login add_user
       list_donations isAuthenticated try_catch bind dbRun dbGet_count
       dbGet_user dbAll_donations stripe_create stripe_retrieve record_call
       await get_db put_db get_session set_session ret throw console_print
       next json run_sql];
  cbn [fst snd db calls console session_user].

Ltac split_run :=
  repeat match goal with
  | |- context [if ?b then _ else _] => destruct b eqn:?
  | |- context [match ?x with Ok _ => _ | Throw _ => _ end] => destruct x eqn:?
  | |- context [match ?x with Some _ => _ | None => _ end] => destruct x eqn:?
  end;
  cbn [fst snd db calls console session_user donations admin_users].

Lemma world_eta w :
  mkWorld (db w) (calls w ++ []) (console w ++ []) (session_user w) = w.
Proof. destruct w. cbn. now rewrite !app_nil_r. Qed.

(** The ways the webhook handler can go: it leaves the database as it was,
    having sent at most its UPDATE; or the UPDATE was applied to the rows
    of one intent and the request is acknowledged. *)
Lemma webhook_cases E req w :
  (exists res made lines,
     webhook E req w =
       (res, mkWorld (db w) (calls w ++ made) (console w ++ lines) (session_user w)) /\
     (res <> Ok acknowledgement -> made = [])) \/
  (exists intent pi line,
     webhook E req w =
       (Ok acknowledgement,
        mkWorld
          (mkDatabase
             (map (fun r => if String.eqb (payment_intent_id r) pi
                            then set_status "succeeded" r else r)
                (donations (db w)))
             (admin_users (db w)))
          (calls w ++ [Db (UPDATE_donations_WHERE_payment_intent_id "succeeded" intent)])
          (console w ++ [line]) (session_user w))).
Proof.
  run.
  destruct (received_event E req) as [event|err].
  2:{ left. eexists. exists []. eexists. rewrite app_nil_r.
      split; [reflexivity | auto]. }
  destruct (Json.get (Some event) "type") as [type|err].
  2:{ left. exists (Throw err), [], []. rewrite world_eta. auto. }
  destruct (Json.is_string type "payment_intent.succeeded").
  2:{ left. exists (Ok acknowledgement), [], []. rewrite world_eta. auto. }
  destruct (Json.get (Some event) "data") as [data|err].
  2:{ left. exists (Throw err), [], []. rewrite world_eta. auto. }
  destruct (Json.get data "object") as [object|err].
  2:{ left. exists (Throw err), [], []. rewrite world_eta. auto. }
  destruct (Json.get object "id") as [intent|err].
  2:{ left. exists (Throw err), [], []. rewrite world_eta. auto. }
  destruct (db_fails E _).
  { left. eexists. eexists. eexists. split; [reflexivity|]. intros H. now elim H. }
  destruct (intent_text _ _) as [pi|].
  - right. exists intent, pi. eexists. reflexivity.
  - left. eexists. eexists. eexists. split; [reflexivity|]. intros H. now elim H.
Qed.

(** The same for the route: an error thrown by the handler is answered by
    the catch-all middleware. *)
Lemma route_webhook_cases E req w :
  (exists response made lines,
     route (webhook E req) w =
       (Ok response,
        mkWorld (db w) (calls w ++ made) (console w ++ lines) (session_user w)) /\
     (response <> acknowledgement -> made = [])) \/
  (exists intent pi line,
     route (webhook E req) w =
       (Ok acknowledgement,
        mkWorld
          (mkDatabase
             (map (fun r => if String.eqb (payment_intent_id r) pi
                            then set_status "succeeded" r else r)
                (donations (db w)))
             (admin_users (db w)))
          (calls w ++ [Db (UPDATE_donations_WHERE_payment_intent_id "succeeded" intent)])
          (console w ++ [line]) (session_user w))).
Proof.
  unfold route, try_catch.
  destruct (webhook_cases E req w)
    as [(res & made & lines & H & Hm) | (intent & pi & line & H)]; rewrite H.
  - left. destruct res as [response|err].
    + exists response, made, lines. split; [reflexivity|].
      intros Hr. apply Hm. congruence.
    + rewrite (Hm ltac:(discriminate)). run.
      exists internal_error, [], (lines ++ ["Unhandled error:"]).
      rewrite app_assoc. split; [reflexivity | auto].
  - right. exists intent, pi, line. reflexivity.
Qed.

(** Every handler leaves each stored donation in place, changing at most
    its status, and adds at most one row; only the creation handler adds
    one, and only the webhook and the donations list change a status. *)
Lemma handle_donations E r w :
  exists kept added,
    donations (db (snd (handle E r w))) = kept ++ added /\
    Forall2 same_but_status (donations (db w)) kept /\
    (added = [] \/
     exists body row,
       r = POST_create_payment_intent body /\
       added = [row] /\
       id row = next_rowid (map id (donations (db w))) /\
       payment_intent_status row = "pending" /\
       well_formed row) /\
    match r with
    | POST_webhook _ | GET_donations => added = []
    | _ => kept = donations (db w)
    end.
Proof.
  destruct r; cbn [handle].
  - (* creation *)
    unfold create_payment_intent. run.
    destruct (negb _ || negb _) eqn:Hc.
    { exists (donations (db w)), []. rewrite app_nil_r.
      cbn; auto using Forall2_same_refl. }
    destruct (Js.isNaN _ || Js.leb _ _) eqn:Hn.
    { exists (donations (db w)), []. rewrite app_nil_r.
      cbn; auto using Forall2_same_refl. }
    destruct (paymentIntents_create E _ _ _) as [p|err].
    2:{ exists (donations (db w)), []. rewrite app_nil_r.
        cbn; auto using Forall2_same_refl. }
    destruct (db_fails E _).
    { exists (donations (db w)), []. rewrite app_nil_r.
      cbn; auto using Forall2_same_refl. }
    cbn [snd db donations]. eexists. eexists. split; [reflexivity|].
    split; [apply Forall2_same_refl|]. split; [|reflexivity].
    right. eexists. eexists. split; [reflexivity|]. split; [reflexivity|].
    cbn [id payment_intent_status]. split; [reflexivity|]. split; [reflexivity|].
    apply orb_false_elim in Hc. destruct Hc as [_ He].
    apply negb_false_iff in He.
    apply orb_false_elim in Hn. destruct Hn as [Hnan Hle].
    unfold well_formed. cbn.
    repeat split; auto using or_null_not_empty.
  - (* webhook *)
    destruct (route_webhook_cases E req w)
      as [(res & made & lines & H & _) | (intent & pi & line & H)];
      rewrite H; cbn [snd db donations].
    + exists (donations (db w)), []. rewrite app_nil_r.
      auto using Forall2_same_refl.
    + eexists. exists []. rewrite app_nil_r. split; [reflexivity|].
      split; [|auto]. apply Forall2_map_right. intros d _.
      destruct (String.eqb _ _);
        [apply same_but_status_set | apply same_but_status_refl].
  - (* check-setup *)
    unfold check_setup. run. split_run;
      exists (donations (db w)), []; rewrite app_nil_r;
      auto using Forall2_same_refl.
  - (* register *)
    unfold register. run. split_run;
      exists (donations (db w)), []; rewrite app_nil_r;
      auto using Forall2_same_refl.
  - (* login *)
    unfold login. run. split_run;
      exists (donations (db w)), []; rewrite app_nil_r;
      auto using Forall2_same_refl.
  - (* donations list *)
    destruct (list_donations_cases E w)
      as [[_ H] | [[_ H] | (w' & H & Hd & _)]]; rewrite H; cbn [snd db donations].
    + exists (donations (db w)), []. rewrite app_nil_r.
      auto using Forall2_same_refl.
    + exists (donations (db w)), []. rewrite app_nil_r.
      auto using Forall2_same_refl.
    + exists (donations (db w')), []. rewrite app_nil_r. split; [reflexivity|].
      split; [|auto]. rewrite Hd, fold_apply_update.
      apply Forall2_map_right. intros d _.
      apply same_but_status_fold_touch, same_but_status_refl.
  - (* users *)
    unfold add_user. run. split_run;
      exists (donations (db w)), []; rewrite app_nil_r;
      auto using Forall2_same_refl.
Qed.

(** X4. No request deletes a donation or changes anything but its status:
    after any request the table is the old rows in the old order, each up
    to its status, followed by at most one new row. Only the creation
    handler adds a row; only the webhook and the donations list change a
    status; the admin endpoints leave the table alone. *)
Theorem donations_are_never_deleted_or_rewritten E r w :
  exists kept added,
    donations (db (snd (handle E r w))) = kept ++ added /\
    Forall2 same_but_status (donations (db w)) kept /\
    (List.length added <= 1)%nat /\
    match r with
    | POST_create_payment_intent _ => kept = donations (db w)
    | POST_webhook _ | GET_donations => added = []
    | _ => donations (db (snd (handle E r w))) = donations (db w)
    end.
Proof.
  destruct (handle_donations E r w) as (kept & added & Hd & Hk & Ha & Hr).
  exists kept, added. split; [exact Hd|]. split; [exact Hk|]. split.
  - destruct Ha as [-> | (body & row & _ & -> & _)]; cbn; lia.
  - destruct r; try exact Hr;
      destruct Ha as [-> | (b & row & Hb & _)]; try discriminate;
      rewrite Hd, Hr; apply app_nil_r.
Qed.

Lemma Forall2_same_ids a b :
  Forall2 same_but_status a b -> map id b = map id a.
Proof.
  induction 1 as [|x y a b Hxy _ IH]; [reflexivity|].
  cbn [map]. f_equal; [apply Hxy | exact IH].
Qed.

(** X5. Rowids of donations stay pairwise distinct: if they are before a
    request, they are after it, whatever the request and whatever Stripe
    and the store do. *)
Theorem donation_rowids_stay_distinct E r w :
  NoDup (map id (donations (db w))) ->
  NoDup (map id (donations (db (snd (handle E r w))))).
Proof.
  intros Hnd.
  destruct (handle_donations E r w) as (kept & added & Hd & Hk & Ha & _).
  rewrite Hd, map_app, (Forall2_same_ids _ _ Hk).
  destruct Ha as [-> | (body & row & _ & -> & Hid & _)].
  - cbn [map]. now rewrite app_nil_r.
  - cbn [map]. rewrite Hid.
    apply (Permutation_NoDup (l := next_rowid (map id (donations (db w)))
                                   :: map id (donations (db w)))).
    + apply Permutation_cons_append.
    + constructor; [apply next_rowid_fresh | exact Hnd].
Qed.

Lemma well_formed_same a b :
  same_but_status a b -> well_formed a -> well_formed b.
Proof.
  unfold same_but_status, well_formed. intros Hs Hw.
  decompose [and] Hs. decompose [and] Hw.
  repeat split; congruence.
Qed.

(** X6. Donation rows stay well formed: if every stored row has an email,
    an amount that is a number above zero, and no empty string in an
    optional field, the same holds after any request. *)
Theorem donation_rows_stay_well_formed E r w :
  Forall well_formed (donations (db w)) ->
  Forall well_formed (donations (db (snd (handle E r w)))).
Proof.
  intros Hw.
  destruct (handle_donations E r w) as (kept & added & Hd & Hk & Ha & _).
  rewrite Hd. apply Forall_app. split.
  - clear Hd Ha. induction Hk as [|x y a b Hxy _ IH]; [constructor|].
    inversion Hw; subst. constructor; [|now apply IH].
    eapply well_formed_same; eassumption.
  - destruct Ha as [-> | (body & row & _ & -> & _ & _ & Hrow)];
      [constructor | constructor; [exact Hrow | constructor]].
Qed.

Ltac admins_untouched :=
  cbn [fst snd db calls console session_user donations admin_users];
  exists []; rewrite app_nil_r; auto.

(** Every handler leaves the admin accounts in place and adds at most one,
    and only on a registration or user-creation request that passed the
    checks of its handler. *)
Lemma handle_admin_users E r w :
  exists added,
    admin_users (db (snd (handle E r w))) = admin_users (db w) ++ added /\
    (added = [] \/
     exists body hash,
       (r = POST_register body \/ r = POST_users body) /\
       added = [mkAdminUser (next_rowid (map admin_id (admin_users (db w))))
                  (text (Body.username body)) hash] /\
       bcrypt_hash E (Body.password body) = Ok hash /\
       username_taken (text (Body.username body)) (admin_users (db w)) = false /\
       Js.truthy_text (Body.username body) = true /\
       Js.truthy (Body.password body) = true /\
       (session_user w <> None \/
        (r = POST_register body /\ admin_users (db w) = []))).
Proof.
  destruct r; cbn [handle].
  - run. split_run; admins_untouched.
  - destruct (route_webhook_cases E req w)
      as [(res & made & lines & H & _) | (intent & pi & line & H)];
      rewrite H; admins_untouched.
  - run. split_run; admins_untouched.
  - (* register *)
    run.
    destruct (negb _ || negb _) eqn:Hc; [admins_untouched|].
    destruct (db_fails E SELECT_COUNT_admin_users); [admins_untouched|].
    destruct (negb _ && negb _) eqn:Hauth; [admins_untouched|].
    destruct (bcrypt_hash E _) as [hash|err] eqn:Hh; [|admins_untouched].
    destruct (db_fails E (INSERT_INTO_admin_users _ _)); [admins_untouched|].
    destruct (username_taken _ _) eqn:Ht; [admins_untouched|].
    cbn [snd db admin_users]. eexists. split; [reflexivity|].
    right. exists body, hash.
    apply orb_false_elim in Hc. destruct Hc as [Hu Hp].
    apply negb_false_iff in Hu. apply negb_false_iff in Hp.
    repeat split; auto.
    apply andb_false_iff in Hauth. destruct Hauth as [Hfirst | Hsess].
    + right. split; [reflexivity|].
      apply negb_false_iff, Z.eqb_eq in Hfirst.
      destruct (admin_users (db w)) as [|a l] eqn:Hl; [reflexivity|].
      exfalso. cbn [db] in Hfirst. rewrite Hl in Hfirst.
      cbn [List.length] in Hfirst. lia.
    + left. apply negb_false_iff in Hsess.
      destruct (session_user w); [discriminate | discriminate].
  - run. split_run; admins_untouched.
  - destruct (list_donations_cases E w)
      as [[_ H] | [[_ H] | (w' & H & _ & Ha & _)]]; rewrite H.
    + admins_untouched.
    + admins_untouched.
    + cbn [snd]. exists []. rewrite app_nil_r. auto.
  - (* users *)
    run.
    destruct (session_user w) as [u|] eqn:Hs; [|admins_untouched].
    destruct (negb _ || negb _) eqn:Hc; [admins_untouched|].
    destruct (bcrypt_hash E _) as [hash|err] eqn:Hh; [|admins_untouched].
    destruct (db_fails E (INSERT_INTO_admin_users _ _)); [admins_untouched|].
    destruct (username_taken _ _) eqn:Ht; [admins_untouched|].
    cbn [snd db admin_users]. eexists. split; [reflexivity|].
    right. exists body, hash.
    apply orb_false_elim in Hc. destruct Hc as [Hu Hp].
    apply negb_false_iff in Hu. apply negb_false_iff in Hp.
    repeat split; auto. left. discriminate.
Qed.

(** X7. Admin accounts are only ever appended: no request changes or
    removes one. An account is added only by a registration or
    user-creation request with both fields present, made with a session or
    against an empty table; its password column holds what bcrypt returned
    for the submitted password, never the submitted text as such. *)
Theorem admin_accounts_are_append_only E r w :
  exists added,
    admin_users (db (snd (handle E r w))) = admin_users (db w) ++ added /\
    (List.length added <= 1)%nat /\
    forall account, In account added ->
      (session_user w <> None \/ admin_users (db w) = []) /\
      exists body,
        (r = POST_register body \/ r = POST_users body) /\
        username account = text (Body.username body) /\
        username account <> "" /\
        bcrypt_hash E (Body.password body) = Ok (password account).
Proof.
  destruct (handle_admin_users E r w) as (added & Ha & Hs).
  exists added. split; [exact Ha|].
  destruct Hs as [-> | (body & hash & Hr & -> & Hh & _ & Hu & _ & Hauth)].
  - split; [cbn; lia | intros ? []].
  - split; [cbn; lia|]. intros account [<- | []]. cbn [username password]. split.
    + destruct Hauth as [H | [_ H]]; auto.
    + exists body. repeat split; auto.
      destruct (Body.username body) as [s|]; cbn in *; [|discriminate].
      destruct (String.eqb_spec s ""); [discriminate | assumption].
Qed.

Lemma username_taken_false name l :
  username_taken name l = false -> ~ In name (map username l).
Proof.
  unfold username_taken. intros H Hin.
  apply in_map_iff in Hin. destruct Hin as (u & Hu & Hin).
  assert (Ht : existsb (fun u => String.eqb (username u) name) l = true).
  { apply existsb_exists. exists u. split; [exact Hin|]. now apply String.eqb_eq. }
  congruence.
Qed.

(** X8. Usernames and rowids of admin accounts stay pairwise distinct
    across every request: the UNIQUE constraint and AUTOINCREMENT keep the
    table a map from username to one account. *)
Theorem admin_usernames_stay_unique E r w :
  NoDup (map username (admin_users (db w))) ->
  NoDup (map admin_id (admin_users (db w))) ->
  NoDup (map username (admin_users (db (snd (handle E r w))))) /\
  NoDup (map admin_id (admin_users (db (snd (handle E r w))))).
Proof.
  intros Hn Hi.
  destruct (handle_admin_users E r w) as (added & Ha & Hs).
  rewrite Ha, !map_app.
  destruct Hs as [-> | (body & hash & _ & -> & _ & Ht & _)]; cbn [map].
  - now rewrite !app_nil_r.
  - cbn [username admin_id]. split.
    + apply (Permutation_NoDup (l := text (Body.username body)
                                     :: map username (admin_users (db w)))).
      * apply Permutation_cons_append.
      * constructor; [now apply username_taken_false | exact Hn].
    + apply (Permutation_NoDup (l := next_rowid (map admin_id (admin_users (db w)))
                                     :: map admin_id (admin_users (db w)))).
      * apply Permutation_cons_append.
      * constructor; [apply next_rowid_fresh | exact Hi].
Qed.

(** ** Accounts and sessions *)

(** X9. The two endpoints behind [isAuthenticated] answer 401 exactly
    when the request has no session. Without one, the donations list and
    the creation of a user are answered 401 in the world the request
    arrived in: nothing is read from the store, Stripe is not called and
    no account is made. With one, neither is ever answered 401. *)
Theorem admin_endpoints_answer_401_iff_no_session E w body :
  (session_user w = None ->
   handle E GET_donations w = (Ok (json 401 (J_error "Unauthorized")), w) /\
   handle E (POST_users body) w = (Ok (json 401 (J_error "Unauthorized")), w)) /\
  (session_user w <> None ->
   forall response,
     (fst (handle E GET_donations w) = Ok response \/
      fst (handle E (POST_users body) w) = Ok response) ->
     statusCode response <> 401).
Proof.
  split.
  - intros Hs. cbn [handle].
    unfold list_donations, add_user, isAuthenticated, bind, get_session.
    rewrite Hs. auto.
  - intros Hs response [H | H].
    + cbn [handle] in H.
      destruct (list_donations_cases E w)
        as [[Hn _] | [[_ Hr] | (w' & Hr & _)]]; [contradiction | |];
        rewrite Hr in H; inversion H; subst; cbn; discriminate.
    + cbn [handle] in H. revert H. run.
      destruct (session_user w) as [u|]; [|contradiction].
      split_run; intros H; inversion H; subst; cbn; discriminate.
Qed.

(** X10. A username that is already taken is refused by the UNIQUE
    constraint: with a session, both the registration and the
    user-creation request are answered with the generic 500, and the
    database is left as it was. *)
Theorem duplicate_username_is_refused_with_500 E body w u hash :
  session_user w = Some u ->
  Js.truthy_text (Body.username body) = true ->
  Js.truthy (Body.password body) = true ->
  (forall q, db_fails E q = false) ->
  bcrypt_hash E (Body.password body) = Ok hash ->
  username_taken (text (Body.username body)) (admin_users (db w)) = true ->
  fst (handle E (POST_register body) w) = Ok internal_error /\
  db (snd (handle E (POST_register body) w)) = db w /\
  fst (handle E (POST_users body) w) = Ok internal_error /\
  db (snd (handle E (POST_users body) w)) = db w.
Proof.
  intros Hs Hu Hp Hf Hh Ht. cbn [handle]. run.
  repeat (cbn [negb orb is_some fst snd db calls console session_user admin_users];
          rewrite ?Hs, ?Hu, ?Hp, ?Hh, ?Hf, ?Ht, ?andb_false_r).
  cbn. auto.
Qed.

Lemma find_appended {A} (f : A -> bool) l x :
  existsb f l = false -> f x = true -> find f (l ++ [x]) = Some x.
Proof.
  induction l as [|a l IH]; cbn; intros He Hx.
  - now rewrite Hx.
  - apply orb_false_elim in He. destruct He as [Ha Hl].
    rewrite Ha. now apply IH.
Qed.

(** X11. Registration and login round trip: when a registration is
    admitted (a session, or an empty table) for a free username, and
    bcrypt accepts the password against the hash it produced, a login with
    the same credentials right after succeeds and opens the session of the
    account just created. *)
Theorem register_then_login E body w hash :
  Js.truthy_text (Body.username body) = true ->
  Js.truthy (Body.password body) = true ->
  (forall q, db_fails E q = false) ->
  bcrypt_hash E (Body.password body) = Ok hash ->
  bcrypt_compare E (Body.password body) hash = Ok true ->
  session_user w <> None \/ admin_users (db w) = [] ->
  username_taken (text (Body.username body)) (admin_users (db w)) = false ->
  fst (register E body w)
    = Ok (json 200 (J_message "Admin user registered successfully.")) /\
  fst (login E body (snd (register E body w)))
    = Ok (json 200 (J_message "Login successful.")) /\
  session_user (snd (login E body (snd (register E body w))))
    = Some (mkSessionUser (next_rowid (map admin_id (admin_users (db w))))
              (text (Body.username body))).
Proof.
  intros Hu Hp Hf Hh Hc Hauth Ht.
  rewrite (register_run E body w Hu Hp (Hf _)). cbv zeta.
  replace (negb (Z.of_nat (List.length (admin_users (db w))) =? 0)
           && negb (is_some (session_user w))) with false.
  2:{ destruct Hauth as [Hs | He].
      - destruct (session_user w); [now rewrite andb_false_r | congruence].
      - now rewrite He. }
  rewrite (register_insert_run E body _ hash Hh (Hf _)) by exact Ht.
  cbn [fst snd]. split; [reflexivity|].
  rewrite (login_run E body _ Hu Hp (Hf _)). cbv zeta. cbn [db admin_users].
  rewrite find_appended; [| exact Ht | apply String.eqb_refl].
  cbn [password]. rewrite Hc. cbn. auto.
Qed.

(** X12. A session is opened only by a login that names a stored account
    whose hash bcrypt accepts for the submitted password: every other
    request, and every other login, leaves the session as it was. *)
Theorem session_is_opened_only_by_a_matching_login E r w :
  session_user (snd (handle E r w)) = session_user w \/
  exists body account,
    r = POST_login body /\
    In account (admin_users (db w)) /\
    username account = text (Body.username body) /\
    bcrypt_compare E (Body.password body) (password account) = Ok true /\
    session_user (snd (handle E r w))
      = Some (mkSessionUser (admin_id account) (username account)) /\
    fst (handle E r w) = Ok (json 200 (J_message "Login successful.")).
Proof.
  destruct r; cbn [handle].
  - run. split_run; now left.
  - run. split_run; now left.
  - run. split_run; now left.
  - run. split_run; now left.
  - run.
    destruct (negb _ || negb _); [now left|].
    destruct (db_fails E _); [now left|].
    destruct (find _ _) as [account|] eqn:Hfind; [|now left].
    destruct (bcrypt_compare E _ _) as [[|]|err] eqn:Hc; [|now left|now left].
    right. exists body, account. apply find_some in Hfind.
    destruct Hfind as [Hin Hname]. apply String.eqb_eq in Hname.
    cbn [fst snd session_user db] in *. repeat split; auto.
  - destruct (list_donations_cases E w)
      as [[_ H] | [[_ H] | (w' & H & _ & _ & _ & Hs)]]; rewrite H; now left.
  - run. split_run; now left.
Qed.

(** X13. Every request is answered, with one of the statuses 200, 400, 401
    and 500; a 500 always carries the generic body and is logged by the
    catch-all middleware. The webhook handler can throw, when it reads a
    property of a payload that has none; that error too reaches the
    catch-all middleware and is answered 500. *)
Theorem every_request_is_answered E r w :
  exists response,
    fst (handle E r w) = Ok response /\
    (statusCode response = 200 \/ statusCode response = 400 \/
     statusCode response = 401 \/ statusCode response = 500) /\
    (statusCode response = 500 ->
     response = internal_error /\
     In "Unhandled error:" (console (snd (handle E r w)))).
Proof.
  assert (Hlog : forall l : list string,
            In "Unhandled error:" (l ++ ["Unhandled error:"])).
  { intros l. apply in_or_app. right. now left. }
  assert (Hlist : exists response,
            fst (list_donations E w) = Ok response /\
            (statusCode response = 200 \/ statusCode response = 400 \/
             statusCode response = 401 \/ statusCode response = 500) /\
            (statusCode response = 500 ->
             response = internal_error /\
             In "Unhandled error:" (console (snd (list_donations E w))))).
  { destruct (list_donations_cases E w)
      as [[_ H] | [[_ H] | (w' & H & _)]]; rewrite H;
      eexists; (split; [reflexivity|]);
      cbn [statusCode fst snd internal_error json console];
      (split; [tauto|]); intros H5; try discriminate H5.
    split; [reflexivity|]. apply in_or_app. right. now left. }
  destruct r; cbn [handle]; try exact Hlist; clear Hlist;
    run; split_run; eexists; (split; [reflexivity|]); cbn [statusCode];
    (split; [tauto|]); intros H; try discriminate H;
    (split; [reflexivity | apply Hlog]).
Qed.

Ltac unchanged_or_ok :=
  cbn [fst snd db statusCode]; intros; (reflexivity || (exfalso; auto)).

(** X14. A request that is answered with an error has changed nothing in
    the database: whenever the status is not 200, both tables are exactly
    as they were before the request. *)
Theorem error_response_leaves_database_untouched E r w response :
  fst (handle E r w) = Ok response ->
  statusCode response <> 200 ->
  db (snd (handle E r w)) = db w.
Proof.
  destruct r; cbn [handle].
  - run. split_run; intros H Hs; inversion H; subst; unchanged_or_ok.
  - run. split_run; intros H Hs; inversion H; subst; unchanged_or_ok.
  - run. split_run; intros H Hs; inversion H; subst; unchanged_or_ok.
  - run. split_run; intros H Hs; inversion H; subst; unchanged_or_ok.
  - run. split_run; intros H Hs; inversion H; subst; unchanged_or_ok.
  - destruct (list_donations_cases E w)
      as [[_ H] | [[_ H] | (w' & H & _)]]; rewrite H;
      intros H1 Hs; inversion H1; subst; unchanged_or_ok.
  - run. split_run; intros H Hs; inversion H; subst; unchanged_or_ok.
Qed.

(** ** Repeating a request *)

Lemma database_ext (a b : Database) :
  donations a = donations b -> admin_users a = admin_users b -> a = b.
Proof. destruct a, b; cbn; intros; subst; reflexivity. Qed.

Lemma succeeded_twice pi d :
  let mark := fun r => if String.eqb (payment_intent_id r) pi
                       then set_status "succeeded" r else r in
  mark (mark d) = mark d.
Proof.
  cbv zeta. destruct d as [i a e f l c co po p s t]. cbn [payment_intent_id].
  destruct (String.eqb p pi) eqn:Hd; cbn [set_status payment_intent_id];
    now rewrite Hd.
Qed.

(** X15. Delivering the same webhook a second time changes nothing: the
    answer is the same and the database is the one the first delivery
    left. *)
Theorem webhook_redelivery_changes_nothing E req w :
  fst (webhook E req (snd (webhook E req w))) = fst (webhook E req w) /\
  db (snd (webhook E req (snd (webhook E req w)))) = db (snd (webhook E req w)).
Proof.
  run.
  destruct (received_event E req) as [event|err]; [|auto].
  destruct (Json.get (Some event) "type") as [type|err]; [|auto].
  destruct (Json.is_string type "payment_intent.succeeded"); [|auto].
  destruct (Json.get (Some event) "data") as [data|err]; [|auto].
  destruct (Json.get data "object") as [object|err]; [|auto].
  destruct (Json.get object "id") as [intent|err]; [|auto].
  destruct (db_fails E _); [auto|].
  destruct (intent_text _ _) as [pi|]; cbn [fst snd db donations admin_users];
    [|auto].
  split; [reflexivity|]. f_equal.
  rewrite map_map. apply map_ext. intros d. apply (succeeded_twice pi d).
Qed.

Lemma reconciled_twice E d : reconciled E (reconciled E d) = reconciled E d.
Proof.
  unfold reconciled, reconciled_status.
  cbn [set_status payment_intent_status payment_intent_id id].
  repeat match goal with
  | |- context [String.eqb ?a ?b] => destruct (String.eqb_spec a b)
  | |- context [match paymentIntents_retrieve ?F ?x with _ => _ end] =>
      destruct (paymentIntents_retrieve F x) eqn:?
  | |- context [db_fails ?F ?q] => destruct (db_fails F q) eqn:?
  end; try reflexivity; congruence.
Qed.

Lemma insert_desc_map (f : Donation -> Donation) d l :
  (forall x, created_at (f x) = created_at x) ->
  insert_desc (f d) (map f l) = map f (insert_desc d l).
Proof.
  intros Hf. induction l as [|x l IH]; cbn [insert_desc map]; [reflexivity|].
  rewrite !Hf. destruct (created_at x <=? created_at d); cbn [map]; [reflexivity|].
  now rewrite IH.
Qed.

Lemma order_by_created_at_desc_map (f : Donation -> Donation) l :
  (forall x, created_at (f x) = created_at x) ->
  order_by_created_at_desc (map f l) = map f (order_by_created_at_desc l).
Proof.
  intros Hf. induction l as [|d l IH];
    cbn [order_by_created_at_desc fold_right map]; [reflexivity|].
  fold (order_by_created_at_desc (map f l)). fold (order_by_created_at_desc l).
  rewrite IH. now apply insert_desc_map.
Qed.

(** X16. Reconciliation is idempotent against an unchanged processor: a
    second donations list right after the first returns the same rows and
    leaves the database as the first left it. *)
Theorem reconciliation_is_idempotent E w u :
  session_user w = Some u ->
  NoDup (map id (donations (db w))) ->
  db_fails E SELECT_donations_ORDER_BY_created_at_DESC = false ->
  fst (list_donations E (snd (list_donations E w))) = fst (list_donations E w) /\
  db (snd (list_donations E (snd (list_donations E w))))
    = db (snd (list_donations E w)).
Proof.
  intros Hu Hnd Hf.
  destruct (list_donations_cases E w)
    as [[H _] | [[H _] | (w1 & H1 & Hd1 & Ha1 & _ & Hs1)]]; try congruence.
  rewrite H1. cbn [fst snd].
  destruct (list_donations_cases E w1)
    as [[H _] | [[H _] | (w2 & H2 & Hd2 & Ha2 & _)]]; try congruence.
  rewrite H2. cbn [fst snd].
  pose proof (order_by_created_at_desc_perm (donations (db w))) as Hp.
  rewrite (store_after_pass E _ _ Hp Hnd) in Hd1.
  assert (Hnd1 : NoDup (map id (donations (db w1)))).
  { rewrite Hd1, map_map. erewrite map_ext; [exact Hnd|]. reflexivity. }
  pose proof (order_by_created_at_desc_perm (donations (db w1))) as Hp1.
  rewrite (store_after_pass E _ _ Hp1 Hnd1) in Hd2.
  assert (Htwice : forall l, map (reconciled E) (map (reconciled E) l)
                             = map (reconciled E) l).
  { intros l. rewrite map_map. apply map_ext. apply reconciled_twice. }
  split.
  - do 3 f_equal. rewrite Hd1.
    rewrite order_by_created_at_desc_map by reflexivity. apply Htwice.
  - apply database_ext; [|congruence].
    rewrite Hd2, Hd1. apply Htwice.
Qed.

Lemma lookups_app a b : lookups (a ++ b) = lookups a ++ lookups b.
Proof.
  induction a as [|c a IH]; [reflexivity|].
  destruct c; cbn [app lookups]; now rewrite IH.
Qed.

Lemma lookups_reconciliation E l :
  lookups (flat_map (reconciliation_calls E) l)
  = map payment_intent_id (filter is_pending l).
Proof.
  induction l as [|d l IH]; [reflexivity|].
  cbn [flat_map filter]. rewrite lookups_app, IH.
  unfold reconciliation_calls, is_pending.
  destruct (String.eqb (payment_intent_status d) "pending"); [|reflexivity].
  cbn [lookups map app]. f_equal.
  destruct (paymentIntents_retrieve E _) as [p|]; [|reflexivity].
  now destruct (String.eqb (Stripe.status p) (payment_intent_status d)).
Qed.

(** X17. Whatever Stripe and the store answer during the pass, the
    donations list looks up exactly the rows that were pending when it
    read the table, once each, newest first, and no other intent. *)
Theorem reconciliation_looks_up_pending_rows_only E w u :
  session_user w = Some u ->
  db_fails E SELECT_donations_ORDER_BY_created_at_DESC = false ->
  lookups (calls_made w (snd (list_donations E w)))
  = map payment_intent_id
      (filter is_pending (order_by_created_at_desc (donations (db w)))).
Proof.
  intros Hu Hf.
  destruct (list_donations_cases E w)
    as [[H _] | [[H _] | (w1 & H1 & _ & _ & Hc & _)]]; try congruence.
  rewrite H1. cbn [snd]. unfold calls_made.
  rewrite Hc, skipn_app, skipn_all, Nat.sub_diag. cbn [skipn app lookups].
  apply lookups_reconciliation.
Qed.


(** ** The donation form script *)

(** X19. The amount held by the donation form is never negative and never
    NaN: after any sequence of [donationSelected] events it is either 0 or
    a number above zero, and an event with an unusable amount resets it
    to 0 whatever was selected before. *)
Theorem selected_donation_is_zero_or_positive parseInt events st bad :
  let final := fold_left (Client.donationSelected parseInt) events Client.initial in
  (Client.selectedDonation final = S754_zero false \/
   (Js.isNaN (Client.selectedDonation final) = false /\
    Js.leb (Client.selectedDonation final) (S754_zero false) = false)) /\
  (Js.isNaN (parseInt bad) || Js.leb (parseInt bad) (S754_zero false) = true ->
   Client.selectedDonation (Client.donationSelected parseInt st (Client.Detail bad))
     = S754_zero false) /\
  Client.selectedDonation (Client.donationSelected parseInt st Client.NoDetail)
    = S754_zero false.
Proof.
  cbv zeta. split; [|split].
  - assert (Hinv : forall l s,
              (Client.selectedDonation s = S754_zero false \/
               (Js.isNaN (Client.selectedDonation s) = false /\
                Js.leb (Client.selectedDonation s) (S754_zero false) = false)) ->
              let f := fold_left (Client.donationSelected parseInt) l s in
              Client.selectedDonation f = S754_zero false \/
              (Js.isNaN (Client.selectedDonation f) = false /\
               Js.leb (Client.selectedDonation f) (S754_zero false) = false)).
    { induction l as [|e l IH]; intros s Hs; cbn [fold_left]; [exact Hs|].
      apply IH. destruct e as [|amount]; cbn [Client.donationSelected].
      - now left.
      - cbv zeta. destruct (Js.isNaN _ || Js.leb _ _) eqn:Hc; [now left|].
        right. now apply orb_false_elim in Hc. }
    apply Hinv. now left.
  - intros Hbad. cbn [Client.donationSelected]. cbv zeta. now rewrite Hbad.
  - reflexivity.
Qed.

(** ** A failing update during reconciliation *)

Lemma reconciled_failing_update E i d :
  reconciled (with_failing_update E i) d =
  if id d =? i then d else reconciled E d.
Proof.
  unfold reconciled, reconciled_status. cbn.
  destruct (Z.eqb_spec (id d) i) as [Hi | Hi].
  - destruct (String.eqb (payment_intent_status d) "pending");
      [|apply set_status_same].
    destruct (paymentIntents_retrieve E _); apply set_status_same.
  - reflexivity.
Qed.

(** X20. A store update that fails during the pass is as local as a failed
    lookup: when every update of the row [i] fails, the donations list is
    still answered 200 with all the rows in order; row [i] is returned and
    stored as it was, even if Stripe reports another status for it, and
    every other row is returned and stored exactly as in the pass where
    that update goes through. *)
Theorem list_donations_update_failure_is_local E w u i :
  session_user w = Some u ->
  NoDup (map id (donations (db w))) ->
  db_fails E SELECT_donations_ORDER_BY_created_at_DESC = false ->
  exists rows w1 rows' w1',
    list_donations E w = (Ok (json 200 (J_donations rows)), w1) /\
    list_donations (with_failing_update E i) w
      = (Ok (json 200 (J_donations rows')), w1') /\
    map id rows' = map id (order_by_created_at_desc (donations (db w))) /\
    map id (donations (db w1')) = map id (donations (db w)) /\
    Forall2 (fun old new => id old = i -> new = old)
      (order_by_created_at_desc (donations (db w))) rows' /\
    Forall2 (fun old new => id old = i -> new = old)
      (donations (db w)) (donations (db w1')) /\
    Forall2 (fun a b => id a <> i -> b = a) rows rows' /\
    Forall2 (fun a b => id a <> i -> b = a)
      (donations (db w1)) (donations (db w1')).
Proof.
  intros Hu Hnd Hf.
  destruct (list_donations_run E w u Hu Hf) as (w1 & H0 & H2 & _).
  destruct (list_donations_run (with_failing_update E i) w u Hu Hf)
    as (w1' & H0' & H2' & _).
  cbv zeta in *.
  pose proof (order_by_created_at_desc_perm (donations (db w))) as Hp.
  rewrite (store_after_pass _ _ _ Hp Hnd) in H2.
  rewrite (store_after_pass _ _ _ Hp Hnd) in H2'.
  set (listed := order_by_created_at_desc (donations (db w))) in *.
  exists (map (reconciled E) listed), w1,
    (map (reconciled (with_failing_update E i)) listed), w1'.
  assert (Hid : forall E' l, map id (map (reconciled E') l) = map id l).
  { intros E' l. rewrite map_map. now apply map_ext. }
  assert (Hsame : forall l,
            Forall2 (fun old new => id old = i -> new = old)
              l (map (reconciled (with_failing_update E i)) l)).
  { intros l. apply Forall2_map_right. intros d _ Hd.
    rewrite reconciled_failing_update.
    destruct (Z.eqb_spec (id d) i); [reflexivity | contradiction]. }
  assert (Hother : forall l,
            Forall2 (fun a b => id a <> i -> b = a)
              (map (reconciled E) l)
              (map (reconciled (with_failing_update E i)) l)).
  { intros l. apply Forall2_map_both. intros d _ Hd.
    rewrite reconciled_failing_update. cbn in Hd.
    destruct (Z.eqb_spec (id d) i); [contradiction | reflexivity]. }
  rewrite H2, H2'. repeat split; auto.
Qed.

(** ** The further properties at work on the demo deployment *)

Lemma webhook_bad_signature_changes_nothing_witness :
  JSON_parse Fixtures.env_signed (Body.raw Demo.succeeded_hook)
    = Ok (Demo.payload "payment_intent.succeeded") /\
  fst (webhook Fixtures.env_signed Demo.succeeded_hook Demo.world)
    = Ok (json 400 (Text "Webhook Error: No signatures found")) /\
  db (snd (webhook Fixtures.env_signed Demo.succeeded_hook Demo.world))
    = db Demo.world.
Proof.
  split; [reflexivity|].
  destruct (webhook_bad_signature_changes_nothing Fixtures.env_signed
              Demo.succeeded_hook Demo.world "whsec_demo"
              Fixtures.signature_error eq_refl)
    as (Hr & Hd & _).
  - discriminate.
  - reflexivity.
  - split; [exact Hr | exact Hd].
Defined.

Lemma create_payment_intent_orphaned_authorization_witness :
  valid_creation Demo.env_db_down Demo.ten_dollars /\
  fst (create_payment_intent Demo.env_db_down Demo.ten_dollars Demo.world)
    = Ok internal_error /\
  db (snd (create_payment_intent Demo.env_db_down Demo.ten_dollars Demo.world))
    = db Demo.world.
Proof.
  assert (H : valid_creation Demo.env_db_down Demo.ten_dollars).
  { repeat split; vm_compute; reflexivity. }
  split; [exact H|].
  destruct (create_payment_intent_orphaned_authorization Demo.env_db_down
              Demo.ten_dollars Demo.world (Demo.intent (Js.of_Z 1000))
              H eq_refl eq_refl)
    as (Hr & Hd & _).
  split; [exact Hr | exact Hd].
Defined.


Lemma donation_rowids_stay_distinct_witness :
  NoDup (map id (donations (db Demo.admin_world))) /\
  NoDup (map id (donations (db (snd (handle Demo.env
                                       (POST_create_payment_intent Demo.ten_dollars)
                                       Demo.admin_world))))).
Proof.
  split; [exact demo_rowids_distinct|].
  exact (donation_rowids_stay_distinct Demo.env
           (POST_create_payment_intent Demo.ten_dollars) Demo.admin_world
           demo_rowids_distinct).
Defined.

Lemma demo_rows_well_formed : Forall well_formed (donations (db Demo.world)).
Proof.
  repeat constructor; vm_compute; try reflexivity; discriminate.
Defined.

Lemma donation_rows_stay_well_formed_witness :
  Forall well_formed (donations (db Demo.world)) /\
  Forall well_formed
    (donations (db (snd (handle Demo.env
                           (POST_create_payment_intent Demo.ten_dollars)
                           Demo.world)))).
Proof.
  split; [exact demo_rows_well_formed|].
  exact (donation_rows_stay_well_formed Demo.env
           (POST_create_payment_intent Demo.ten_dollars) Demo.world
           demo_rows_well_formed).
Defined.

Lemma admin_accounts_are_append_only_witness :
  exists added,
    admin_users (db (snd (handle Demo.env (POST_register Fixtures.root_credentials)
                            Demo.empty_world))) = added /\
    added = [mkAdminUser 1 "root" "$2b$10$hunter2"] /\
    forall account, In account added ->
      bcrypt_hash Demo.env (Js.Str "hunter2") = Ok (password account).
Proof.
  destruct (admin_accounts_are_append_only Demo.env
              (POST_register Fixtures.root_credentials) Demo.empty_world)
    as (added & Ha & _ & Hacc).
  exists added. split; [exact Ha|].
  assert (Hadded : added = [mkAdminUser 1 "root" "$2b$10$hunter2"]).
  { vm_compute in Ha. symmetry. exact Ha. }
  split; [exact Hadded|].
  intros account Hin. destruct (Hacc account Hin) as (_ & body & Hr & _ & _ & Hh).
  destruct Hr as [Hr | Hr]; [|discriminate Hr].
  injection Hr as <-. exact Hh.
Defined.

Lemma admin_usernames_stay_unique_witness :
  NoDup (map username (admin_users (db Demo.admin_world))) /\
  NoDup (map username
           (admin_users (db (snd (handle Demo.env
                                    (POST_users (Body.mkCredentials (Some "eve")
                                                   (Js.Str "hunter2")))
                                    Demo.admin_world))))).
Proof.
  assert (Hn : NoDup (map username (admin_users (db Demo.admin_world)))).
  { vm_compute. repeat constructor. intros []. }
  assert (Hi : NoDup (map admin_id (admin_users (db Demo.admin_world)))).
  { vm_compute. repeat constructor. intros []. }
  split; [exact Hn|].
  exact (proj1 (admin_usernames_stay_unique Demo.env _ Demo.admin_world Hn Hi)).
Defined.

Lemma duplicate_username_is_refused_with_500_witness :
  username_taken "root" (admin_users (db Demo.admin_world)) = true /\
  fst (handle Demo.env (POST_users Fixtures.root_credentials) Demo.admin_world)
    = Ok internal_error /\
  db (snd (handle Demo.env (POST_users Fixtures.root_credentials) Demo.admin_world))
    = db Demo.admin_world.
Proof.
  split; [reflexivity|].
  destruct (duplicate_username_is_refused_with_500 Demo.env
              Fixtures.root_credentials Demo.admin_world
              (mkSessionUser 1 "root") "$2b$10$hunter2"
              eq_refl eq_refl eq_refl (fun q => eq_refl) eq_refl eq_refl)
    as (_ & _ & Hr & Hd).
  split; [exact Hr | exact Hd].
Defined.

Lemma register_then_login_witness :
  bcrypt_compare Demo.env (Js.Str "hunter2") "$2b$10$hunter2" = Ok true /\
  fst (login Demo.env Fixtures.root_credentials
         (snd (register Demo.env Fixtures.root_credentials Demo.empty_world)))
    = Ok (json 200 (J_message "Login successful.")) /\
  session_user
    (snd (login Demo.env Fixtures.root_credentials
            (snd (register Demo.env Fixtures.root_credentials Demo.empty_world))))
    = Some (mkSessionUser 1 "root").
Proof.
  split; [reflexivity|].
  destruct (register_then_login Demo.env Fixtures.root_credentials
              Demo.empty_world "$2b$10$hunter2"
              eq_refl eq_refl (fun q => eq_refl) eq_refl eq_refl
              (or_intror eq_refl) eq_refl)
    as (_ & Hl & Hs).
  split; [exact Hl | exact Hs].
Defined.

Lemma admin_endpoints_answer_401_iff_no_session_witness :
  session_user Demo.world = None /\
  handle Demo.env GET_donations Demo.world
    = (Ok (json 401 (J_error "Unauthorized")), Demo.world) /\
  session_user Demo.admin_world <> None /\
  forall response,
    fst (handle Demo.env GET_donations Demo.admin_world) = Ok response ->
    statusCode response <> 401.
Proof.
  split; [reflexivity|]. split.
  - exact (proj1 (proj1 (admin_endpoints_answer_401_iff_no_session Demo.env
                           Demo.world Fixtures.root_credentials) eq_refl)).
  - assert (Hs : session_user Demo.admin_world <> None) by discriminate.
    split; [exact Hs|]. intros response H.
    exact (proj2 (admin_endpoints_answer_401_iff_no_session Demo.env
                    Demo.admin_world Fixtures.root_credentials)
             Hs response (or_introl H)).
Defined.

Lemma every_request_is_answered_witness :
  exists response,
    fst (handle Demo.env (POST_webhook Demo.hook_without_data) Demo.world)
      = Ok response /\
    statusCode response = 500 /\
    response = internal_error /\
    In "Unhandled error:"
       (console (snd (handle Demo.env (POST_webhook Demo.hook_without_data)
                        Demo.world))).
Proof.
  destruct (every_request_is_answered Demo.env
              (POST_webhook Demo.hook_without_data) Demo.world)
    as (response & H & _ & H500).
  exists response. split; [exact H|].
  assert (Hs : statusCode response = 500).
  { vm_compute in H. injection H as <-. reflexivity. }
  split; [exact Hs | exact (H500 Hs)].
Defined.

Lemma error_response_leaves_database_untouched_witness :
  fst (handle Demo.env_stripe_down (POST_create_payment_intent Demo.ten_dollars)
         Demo.world) = Ok internal_error /\
  statusCode internal_error <> 200 /\
  db (snd (handle Demo.env_stripe_down
             (POST_create_payment_intent Demo.ten_dollars) Demo.world))
    = db Demo.world.
Proof.
  assert (Hs : statusCode internal_error <> 200) by discriminate.
  split; [reflexivity|]. split; [exact Hs|].
  exact (error_response_leaves_database_untouched Demo.env_stripe_down
           (POST_create_payment_intent Demo.ten_dollars) Demo.world
           internal_error eq_refl Hs).
Defined.

Lemma reconciliation_is_idempotent_witness :
  session_user Demo.admin_world = Some (mkSessionUser 1 "root") /\
  db (snd (list_donations Demo.env (snd (list_donations Demo.env Demo.admin_world))))
    = db (snd (list_donations Demo.env Demo.admin_world)).
Proof.
  split; [reflexivity|].
  exact (proj2 (reconciliation_is_idempotent Demo.env Demo.admin_world
                  (mkSessionUser 1 "root") eq_refl demo_rowids_distinct eq_refl)).
Defined.

Lemma reconciliation_looks_up_pending_rows_only_witness :
  session_user Demo.admin_world = Some (mkSessionUser 1 "root") /\
  lookups (calls_made Demo.admin_world
             (snd (list_donations Demo.env Demo.admin_world)))
    = ["pi_2"; "pi_1"].
Proof.
  split; [reflexivity|].
  exact (reconciliation_looks_up_pending_rows_only Demo.env Demo.admin_world
           (mkSessionUser 1 "root") eq_refl eq_refl).
Defined.


Lemma selected_donation_is_zero_or_positive_witness :
  Client.selectedDonation
    (fold_left (Client.donationSelected Fixtures.parseInt)
       [Client.Detail (Js.Num Demo.d10)] Client.initial) = Demo.d10 /\
  Js.isNaN (Fixtures.parseInt (Js.Str "ten"))
    || Js.leb (Fixtures.parseInt (Js.Str "ten")) (S754_zero false) = true /\
  Client.selectedDonation
    (Client.donationSelected Fixtures.parseInt
       (fold_left (Client.donationSelected Fixtures.parseInt)
          [Client.Detail (Js.Num Demo.d10)] Client.initial)
       (Client.Detail (Js.Str "ten")))
    = S754_zero false.
Proof.
  split; [reflexivity|]. split; [reflexivity|].
  destruct (selected_donation_is_zero_or_positive Fixtures.parseInt []
              (fold_left (Client.donationSelected Fixtures.parseInt)
                 [Client.Detail (Js.Num Demo.d10)] Client.initial)
              (Js.Str "ten"))
    as (_ & Hbad & _).
  apply Hbad. reflexivity.
Defined.

Lemma list_donations_update_failure_is_local_witness :
  session_user Demo.admin_world = Some (mkSessionUser 1 "root") /\
  exists rows' w1',
    list_donations (with_failing_update Demo.env 1) Demo.admin_world
      = (Ok (json 200 (J_donations rows')), w1') /\
    map id (donations (db w1')) = map id Demo.three_rows.
Proof.
  split; [reflexivity|].
  destruct (list_donations_update_failure_is_local Demo.env Demo.admin_world
              (mkSessionUser 1 "root") 1 eq_refl demo_rowids_distinct eq_refl)
    as (rows & w1 & rows' & w1' & _ & H0 & _ & Hid & _).
  exists rows', w1'. split; [exact H0 | exact Hid].
Defined.

(** ** From creation to settlement *)

(** X21. The id stored at creation is the key the webhook uses: after a
    successful creation, the succeeded event for the intent Stripe
    returned marks the freshly created row succeeded, with the amount and
    email of the request, and keeps every older row in place. *)
Theorem created_donation_is_settled_by_its_webhook
    E body w paymentIntent req event :
  valid_creation E body ->
  paymentIntents_create E (amountCents E (Body.donationAmount body)) "usd"
    (Body.email body) = Ok paymentIntent ->
  (forall q, db_fails E q = false) ->
  accepted E req event ->
  Stripe.type event = "payment_intent.succeeded" ->
  Stripe.data_object_id event = Stripe.id paymentIntent ->
  exists kept row,
    donations (db (snd (webhook E req (snd (create_payment_intent E body w)))))
      = kept ++ [row] /\
    Forall2 same_but_status (donations (db w)) kept /\
    payment_intent_id row = Stripe.id paymentIntent /\
    payment_intent_status row = "succeeded" /\
    donation_amount row = amountCents E (Body.donationAmount body) /\
    email row = Body.email body.
Proof.
  intros Hv Hs Hf (payload & Hr & Hview) Ht Hid.
  rewrite (webhook_run E req payload event _ Hr Hview), Ht, String.eqb_refl.
  cbv zeta.
  rewrite Hf. cbn [snd db donations].
  rewrite (create_payment_intent_valid_run E body w Hv). cbv zeta.
  rewrite Hs, Hf. cbn [snd db donations]. rewrite map_app. cbn [map payment_intent_id].
  rewrite Hid, String.eqb_refl.
  eexists. eexists. split; [reflexivity|]. split.
  - apply Forall2_map_right. intros d _.
    destruct (String.eqb _ _);
      [apply same_but_status_set | apply same_but_status_refl].
  - cbn. auto.
Qed.

(** X22. A row settled by the webhook is left alone by the next pass: after
    a succeeded event whose update went through, the donations list makes
    no lookup for that intent. *)
Theorem settled_intent_is_not_looked_up E req event w u :
  accepted E req event ->
  Stripe.type event = "payment_intent.succeeded" ->
  db_fails E (UPDATE_donations_WHERE_payment_intent_id "succeeded"
                (Some (Json.JString (Stripe.data_object_id event)))) = false ->
  session_user w = Some u ->
  db_fails E SELECT_donations_ORDER_BY_created_at_DESC = false ->
  ~ In (Stripe.data_object_id event)
      (lookups (calls_made (snd (webhook E req w))
                  (snd (list_donations E (snd (webhook E req w)))))).
Proof.
  intros (payload & Hr & Hview) Ht Hf Hu Hsel.
  rewrite (webhook_run E req payload event w Hr Hview), Ht, String.eqb_refl.
  cbv zeta.
  rewrite Hf. cbn [snd].
  set (w1 := mkWorld _ _ _ _).
  destruct (list_donations_cases E w1)
    as [[H _] | [[H _] | (w2 & H2 & _ & _ & Hc & _)]].
  - subst w1. cbn in H. congruence.
  - congruence.
  - rewrite H2. cbn [snd]. unfold calls_made.
    rewrite Hc, skipn_app, skipn_all, Nat.sub_diag. cbn [skipn app lookups].
    rewrite lookups_reconciliation. intros Hin.
    apply in_map_iff in Hin. destruct Hin as (d & Hpi & Hd).
    apply filter_In in Hd. destruct Hd as [Hd Hpend].
    apply (Permutation_in _ (order_by_created_at_desc_perm _)) in Hd.
    subst w1. cbn [db donations] in Hd.
    apply in_map_iff in Hd. destruct Hd as (d0 & Hmark & _).
    unfold is_pending in Hpend.
    destruct (String.eqb_spec (payment_intent_id d0) (Stripe.data_object_id event))
      as [He | He]; subst d.
    + cbn in Hpend. discriminate.
    + cbn in Hpi. contradiction.
Qed.

Lemma created_donation_is_settled_by_its_webhook_witness :
  valid_creation Demo.env Demo.ten_dollars /\
  accepted Demo.env Demo.succeeded_hook Demo.succeeded_event /\
  exists kept row,
    donations (db (snd (webhook Demo.env Demo.succeeded_hook
                          (snd (create_payment_intent Demo.env Demo.ten_dollars
                                  Demo.empty_world)))))
      = kept ++ [row] /\
    payment_intent_status row = "succeeded".
Proof.
  assert (H : valid_creation Demo.env Demo.ten_dollars).
  { repeat split; vm_compute; reflexivity. }
  assert (Ha : accepted Demo.env Demo.succeeded_hook Demo.succeeded_event).
  { exists (Demo.payload "payment_intent.succeeded"). split; reflexivity. }
  split; [exact H|]. split; [exact Ha|].
  destruct (created_donation_is_settled_by_its_webhook Demo.env Demo.ten_dollars
              Demo.empty_world (Demo.intent (Js.of_Z 1000)) Demo.succeeded_hook
              Demo.succeeded_event H eq_refl (fun q => eq_refl) Ha eq_refl
              eq_refl)
    as (kept & row & Hd & _ & _ & Hs & _).
  exists kept, row. split; [exact Hd | exact Hs].
Defined.

Lemma settled_intent_is_not_looked_up_witness :
  accepted Demo.env Demo.succeeded_hook Demo.succeeded_event /\
  session_user Demo.admin_world = Some (mkSessionUser 1 "root") /\
  ~ In "pi_1"
      (lookups (calls_made (snd (webhook Demo.env Demo.succeeded_hook Demo.admin_world))
                  (snd (list_donations Demo.env
                          (snd (webhook Demo.env Demo.succeeded_hook
                                  Demo.admin_world)))))).
Proof.
  assert (Ha : accepted Demo.env Demo.succeeded_hook Demo.succeeded_event).
  { exists (Demo.payload "payment_intent.succeeded"). split; reflexivity. }
  split; [exact Ha|]. split; [reflexivity|].
  exact (settled_intent_is_not_looked_up Demo.env Demo.succeeded_hook
           Demo.succeeded_event Demo.admin_world (mkSessionUser 1 "root")
           Ha eq_refl eq_refl eq_refl eq_refl).
Defined.
